(** * A shallow embedding of the SSV node sources

    The development follows the Go sources file by file:

    - [Md5], [Aes], [Gcm]: the functions of Go's [crypto/md5], [crypto/aes]
      and [crypto/cipher] that the signer storage calls, written out after
      RFC 1321, FIPS 197 and NIST SP 800-38D;
    - [Ekm]: the signer storage (package [ekm]) with its optional
      encryption at rest and the highest-proposal high-water mark;
    - [Exporter]: the validator catalogue (package [storage]);
    - [Validator]: the validator runtime and the controllers map
      (packages [validator] and [controller]).

    Byte slices are [list byte], Go strings are [string], unsigned machine
    words are [N] with the wrap-around written out, [int64] is [Z]. *)

From Stdlib Require Import ZArith NArith List String Ascii Bool Lia.
From Stdlib Require Import Strings.Byte.
From stdpp Require Import gmap strings list fin_maps pretty.

Local Open Scope N_scope.

(** ** Bytes *)

Abbreviation bytes := (list byte).

Definition byte_to_N (b : byte) : N := Byte.to_N b.

Definition byte_of_N (n : N) : byte :=
  match Byte.of_N (n mod 256) with
  | Some b => b
  | None => x00
  end.

Definition bytes_to_N : bytes -> list N := List.map byte_to_N.
Definition bytes_of_N : list N -> bytes := List.map byte_of_N.

(** [[]byte(s)] and [string(b)]. *)
Definition bytes_of_string (s : string) : bytes := list_byte_of_string s.
Definition string_of_bytes (b : bytes) : string := string_of_list_byte b.

(** Big-endian and little-endian packing of byte values into a word. *)
Fixpoint be_pack (l : list N) (acc : N) : N :=
  match l with
  | [] => acc
  | b :: r => be_pack r (N.lor (N.shiftl acc 8) b)
  end.

Fixpoint be_unpack (n : nat) (w : N) : list N :=
  match n with
  | O => []
  | S k => (N.shiftr w (8 * N.of_nat k)) mod 256 :: be_unpack k w
  end.

Fixpoint le_pack (l : list N) : N :=
  match l with
  | [] => 0
  | b :: r => N.lor b (N.shiftl (le_pack r) 8)
  end.

Fixpoint le_unpack (n : nat) (w : N) : list N :=
  match n with
  | O => []
  | S k => w mod 256 :: le_unpack k (N.shiftr w 8)
  end.

(** Cut a list into pieces of [n] elements; the last piece may be short.
    [fuel] bounds the number of pieces. *)
Fixpoint chunks_fuel {A} (fuel : nat) (n : nat) (l : list A) : list (list A) :=
  match fuel with
  | O => []
  | S f =>
      match l with
      | [] => []
      | _ => firstn n l :: chunks_fuel f n (skipn n l)
      end
  end.

Definition chunks {A} (n : nat) (l : list A) : list (list A) :=
  chunks_fuel (length l) n l.

(** [hex.EncodeToString]: two lower-case digits per byte. *)
Definition hex_digit (n : N) : byte :=
  if n <? 10 then byte_of_N (48 + n) else byte_of_N (87 + n).

Fixpoint hex_EncodeToString (b : bytes) : string :=
  match b with
  | [] => EmptyString
  | x :: r =>
      String (ascii_of_byte (hex_digit (byte_to_N x / 16)))
        (String (ascii_of_byte (hex_digit (byte_to_N x mod 16)))
           (hex_EncodeToString r))
  end.

(** ** crypto/md5 (RFC 1321) *)

Module Md5.

Definition w32 (x : N) : N := x mod 4294967296.

Definition rotl32 (x : N) (c : N) : N :=
  w32 (N.lor (N.shiftl x c) (N.shiftr (w32 x) (32 - c))).

Definition not32 (x : N) : N := N.lxor (w32 x) 4294967295.

Definition shifts : list N :=
  [ 7; 12; 17; 22; 7; 12; 17; 22; 7; 12; 17; 22; 7; 12; 17; 22;
    5; 9; 14; 20; 5; 9; 14; 20; 5; 9; 14; 20; 5; 9; 14; 20;
    4; 11; 16; 23; 4; 11; 16; 23; 4; 11; 16; 23; 4; 11; 16; 23;
    6; 10; 15; 21; 6; 10; 15; 21; 6; 10; 15; 21; 6; 10; 15; 21 ].

(** [floor (2^32 * abs (sin (i + 1)))] for [i] from 0 to 63. *)
Definition sines : list N :=
  [ 3614090360; 3905402710; 606105819; 3250441966;
    4118548399; 1200080426; 2821735955; 4249261313;
    1770035416; 2336552879; 4294925233; 2304563134;
    1804603682; 4254626195; 2792965006; 1236535329;
    4129170786; 3225465664; 643717713; 3921069994;
    3593408605; 38016083; 3634488961; 3889429448;
    568446438; 3275163606; 4107603335; 1163531501;
    2850285829; 4243563512; 1735328473; 2368359562;
    4294588738; 2272392833; 1839030562; 4259657740;
    2763975236; 1272893353; 4139469664; 3200236656;
    681279174; 3936430074; 3572445317; 76029189;
    3654602809; 3873151461; 530742520; 3299628645;
    4096336452; 1126891415; 2878612391; 4237533241;
    1700485571; 2399980690; 4293915773; 2240044497;
    1873313359; 4264355552; 2734768916; 1309151649;
    4149444226; 3174756917; 718787259; 3951481745 ].

Record digest := Digest { dA : N; dB : N; dC : N; dD : N }.

Definition init : digest :=
  Digest 1732584193 4023233417 2562383102 271733878.

(** One of the 64 operations of a block. *)
Definition step (m : list N) (i : N) (s : digest) : digest :=
  let '(Digest a b c d) := s in
  let '(f, g) :=
    if i <? 16 then (N.lor (N.land b c) (N.land (not32 b) d), i)
    else if i <? 32 then
      (N.lor (N.land d b) (N.land (not32 d) c), (5 * i + 1) mod 16)
    else if i <? 48 then (N.lxor b (N.lxor c d), (3 * i + 5) mod 16)
    else (N.lxor c (N.lor b (not32 d)), (7 * i) mod 16) in
  let f' := w32 (f + a + nth (N.to_nat i) sines 0 + nth (N.to_nat g) m 0) in
  Digest d (w32 (b + rotl32 f' (nth (N.to_nat i) shifts 0))) b c.

Definition block (s : digest) (blk : list N) : digest :=
  let m := List.map le_pack (chunks 4 blk) in
  let '(Digest a b c d) :=
    fold_left (fun acc i => step m (N.of_nat i) acc) (seq 0 64) s in
  Digest (w32 (dA s + a)) (w32 (dB s + b)) (w32 (dC s + c)) (w32 (dD s + d)).

(** The message followed by 0x80, zeros up to 56 modulo 64, and the bit
    length on 64 bits, little-endian. *)
Definition pad (msg : list N) : list N :=
  let len := N.of_nat (length msg) in
  let zeros := N.to_nat ((119 - len mod 64) mod 64) in
  msg ++ [128] ++ repeat 0 zeros ++ le_unpack 8 ((8 * len) mod 2 ^ 64).

(** [md5.Sum]. *)
Definition Sum (msg : bytes) : bytes :=
  let '(Digest a b c d) :=
    fold_left block (chunks 64 (pad (bytes_to_N msg))) init in
  bytes_of_N (le_unpack 4 a ++ le_unpack 4 b ++ le_unpack 4 c ++ le_unpack 4 d).

End Md5.

(** ** crypto/aes (FIPS 197) *)

Module Aes.

(** Multiplication by [x] and by a constant in GF(2^8). *)
Definition xtime (b : N) : N :=
  let s := N.shiftl b 1 in
  (if N.testbit b 7 then N.lxor s 27 else s) mod 256.

Fixpoint gmul_loop (n : nat) (a b acc : N) : N :=
  match n with
  | O => acc
  | S k =>
      gmul_loop k (xtime a) (N.shiftr b 1)
        (if N.testbit b 0 then N.lxor acc a else acc)
  end.

Definition gmul (a b : N) : N := gmul_loop 8 a b 0.

Fixpoint gpow (n : nat) (a : N) : N :=
  match n with
  | O => 1
  | S k => gmul a (gpow k a)
  end.

Definition rotl8 (x c : N) : N :=
  (N.lor (N.shiftl x c) (N.shiftr x (8 - c))) mod 256.

(** The S-box: the inverse in GF(2^8) followed by the affine map. *)
Definition sbox_calc (x : N) : N :=
  let i := gpow 254 x in
  N.lxor i (N.lxor (rotl8 i 1) (N.lxor (rotl8 i 2)
    (N.lxor (rotl8 i 3) (N.lxor (rotl8 i 4) 99)))).

Definition sbox0 : list N :=
  Eval vm_compute in List.map (fun i => sbox_calc (N.of_nat i)) (seq 0 256).

Definition sbox (x : N) : N := nth (N.to_nat x) sbox0 0.

Definition xor_list (a b : list N) : list N :=
  List.map (fun p => N.lxor (fst p) (snd p)) (combine a b).

(** The state is the 16 bytes of the block in input order: byte [r + 4c]
    is row [r] of column [c]. *)
Definition SubBytes (s : list N) : list N := List.map sbox s.

Definition ShiftRows (s : list N) : list N :=
  List.map (fun i => nth ((i mod 4) + 4 * (((i / 4) + (i mod 4)) mod 4))%nat s 0)
    (seq 0 16).

Definition mix_column (c : list N) : list N :=
  match c with
  | [a0; a1; a2; a3] =>
      [ N.lxor (gmul a0 2) (N.lxor (gmul a1 3) (N.lxor a2 a3));
        N.lxor a0 (N.lxor (gmul a1 2) (N.lxor (gmul a2 3) a3));
        N.lxor a0 (N.lxor a1 (N.lxor (gmul a2 2) (gmul a3 3)));
        N.lxor (gmul a0 3) (N.lxor a1 (N.lxor a2 (gmul a3 2))) ]
  | _ => c
  end.

Definition MixColumns (s : list N) : list N :=
  concat (List.map mix_column (chunks 4 s)).

(** Key expansion, on words of four bytes. *)
Definition RotWord (w : list N) : list N :=
  match w with
  | a :: r => r ++ [a]
  | [] => []
  end.

Definition SubWord (w : list N) : list N := List.map sbox w.

Definition Rcon (i : nat) : list N := [gpow (i - 1) 2; 0; 0; 0].

Fixpoint expand_loop (n : nat) (nk : nat) (w : list (list N)) : list (list N) :=
  match n with
  | O => w
  | S k =>
      let i := length w in
      let temp := nth (i - 1) w [] in
      let temp :=
        if (i mod nk =? 0)%nat then xor_list (SubWord (RotWord temp)) (Rcon (i / nk))
        else if ((6 <? nk) && (i mod nk =? 4))%nat then SubWord temp
        else temp in
      expand_loop k nk (w ++ [xor_list (nth (i - nk) w []) temp])
  end.

(** The cipher.Block built by [aes.NewCipher]: the round keys, one list of
    16 bytes per round. *)
Record Block := MkBlock { roundKeys : list (list N) }.

Definition expandKey (key : list N) : list (list N) :=
  let nk := (length key / 4)%nat in
  let w := expand_loop (4 * (nk + 7) - nk) nk (chunks 4 key) in
  List.map (@concat N) (chunks 4 w).

(** [aes.NewCipher]: a key of 16, 24 or 32 bytes, or a [KeySizeError]. *)
Definition NewCipher (key : bytes) : option Block :=
  let k := length key in
  if ((k =? 16) || (k =? 24) || (k =? 32))%nat
  then Some (MkBlock (expandKey (bytes_to_N key)))
  else None.

Definition BlockSize : nat := 16.

(** The state xored with the 16 bytes of a round key. *)
Definition AddRoundKey (s rk : list N) : list N :=
  List.map (fun i => N.lxor (nth i s 0) (nth i rk 0)) (seq 0 16).

Definition round (s rk : list N) : list N :=
  AddRoundKey (MixColumns (ShiftRows (SubBytes s))) rk.

Definition final_round (s rk : list N) : list N :=
  AddRoundKey (ShiftRows (SubBytes s)) rk.

(** [Block.Encrypt] on one block of 16 bytes: the initial round key, all
    rounds but the last with [MixColumns], the last without. *)
Definition Encrypt (c : Block) (src : bytes) : bytes :=
  let rks := roundKeys c in
  let s := AddRoundKey (bytes_to_N src) (nth 0 rks []) in
  let s := fold_left round (removelast (tl rks)) s in
  bytes_of_N (final_round s (List.last rks [])).

End Aes.

Definition unhex_digit (a : ascii) : N :=
  let n := N_of_ascii a in
  if n <? 58 then n - 48 else n - 87.

(** Bytes written as a string of hexadecimal digits, for test vectors. *)
Fixpoint unhex (s : string) : bytes :=
  match s with
  | String a (String b r) => byte_of_N (16 * unhex_digit a + unhex_digit b) :: unhex r
  | _ => []
  end.

Definition aes_encrypt_hex (key src : string) : option string :=
  match Aes.NewCipher (unhex key) with
  | Some c => Some (hex_EncodeToString (Aes.Encrypt c (unhex src)))
  | None => None
  end.

(** ** Errors, results and panics *)

(** Errors of [github.com/pkg/errors]: a root made by [errors.New] or a
    cause wrapped with a message. *)
Inductive error : Type :=
| errors_New (msg : string)
| WithMessage (cause : error) (msg : string).

(** [errors.Wrap] returns nil when the wrapped error is nil. *)
Definition errors_Wrap (err : option error) (msg : string) : option error :=
  match err with
  | None => None
  | Some e => Some (WithMessage e msg)
  end.

(** [err.Error()]. *)
Fixpoint Error (e : error) : string :=
  match e with
  | errors_New m => m
  | WithMessage c m => (m ++ ": " ++ Error c)%string
  end.

(** [errors.Cause]: the root of the chain. *)
Fixpoint Cause (e : error) : error :=
  match e with
  | errors_New m => e
  | WithMessage c _ => Cause c
  end.

(** What a call comes back with: a value, an error, or a panic that unwinds
    the goroutine. *)
Inductive result (A : Type) : Type :=
| Ok (a : A)
| Err (e : error)
| Panic (msg : string).
Arguments Ok {A} a.
Arguments Err {A} e.
Arguments Panic {A} msg.

#[global] Instance result_bind : MBind result := fun A B k r =>
  match r with
  | Ok a => k a
  | Err e => Err e
  | Panic m => Panic m
  end.

Definition is_Panic {A} (r : result A) : bool :=
  match r with Panic _ => true | _ => false end.

Definition is_Err {A} (r : result A) : bool :=
  match r with Err _ => true | _ => false end.

#[global] Instance byte_eq_decision : EqDecision byte := Byte.byte_eq_dec.

(** ** crypto/cipher: Galois counter mode (NIST SP 800-38D) *)

Definition byte_xor (a b : byte) : byte :=
  let '(a0, (a1, (a2, (a3, (a4, (a5, (a6, a7))))))) := Byte.to_bits a in
  let '(b0, (b1, (b2, (b3, (b4, (b5, (b6, b7))))))) := Byte.to_bits b in
  Byte.of_bits
    (xorb a0 b0, (xorb a1 b1, (xorb a2 b2, (xorb a3 b3,
    (xorb a4 b4, (xorb a5 b5, (xorb a6 b6, xorb a7 b7))))))).

(** [xorBytes]: as many bytes as the shorter argument has. *)
Fixpoint xorBytes (a b : bytes) : bytes :=
  match a, b with
  | x :: a', y :: b' => byte_xor x y :: xorBytes a' b'
  | _, _ => []
  end.

Module Gcm.

Definition gcmBlockSize : nat := 16.
Definition gcmTagSize : nat := 16.
Definition gcmStandardNonceSize : nat := 12.

(** The largest plaintext of one call, [((1 << 32) - 2) * BlockSize]. *)
Definition maxPlaintext : N := (2 ^ 32 - 2) * 16.

Record gcm := MkGcm { cipher : Aes.Block }.

(** [cipher.NewGCM]. [encrypt] drops the error of [aes.NewCipher], so the
    block may be the nil interface, whose [BlockSize] call panics. An AES
    block always has the 128-bit block size that GCM asks for. *)
Definition NewGCM (block : option Aes.Block) : result gcm :=
  match block with
  | None => Panic "invalid memory address or nil pointer dereference"
  | Some c => Ok (MkGcm c)
  end.

Definition NonceSize (g : gcm) : nat := gcmStandardNonceSize.

(** Multiplication in GF(2^128); a block is the big-endian number of its
    16 bytes, so the leftmost bit of the standard is bit 127. *)
Definition gcmR : N := N.shiftl 225 120.

Fixpoint mul_loop (n : nat) (x v z : N) : N :=
  match n with
  | O => z
  | S k =>
      mul_loop k x
        (if N.testbit v 0 then N.lxor (N.shiftr v 1) gcmR else N.shiftr v 1)
        (if N.testbit x (N.of_nat k) then N.lxor z v else z)
  end.

Definition mul (x y : N) : N := mul_loop 128 x y 0.

(** A block of at most 16 bytes, zero-padded on the right. *)
Definition block_to_N (b : bytes) : N :=
  be_pack (bytes_to_N b ++ repeat 0 (16 - length b)) 0.

(** [gcm.update]: absorb [data] into the GHASH state [y]. *)
Definition update (h y : N) (data : bytes) : N :=
  fold_left (fun y blk => mul (N.lxor y (block_to_N blk)) h) (chunks 16 data) y.

Definition hashKey (g : gcm) : N :=
  block_to_N (Aes.Encrypt (cipher g) (repeat x00 16)).

(** [gcm.auth]: GHASH of the additional data and the ciphertext with
    their bit lengths, masked with the encrypted initial counter. *)
Definition auth (g : gcm) (ciphertext additionalData tagMask : bytes) : bytes :=
  let h := hashKey g in
  let y := update h 0 additionalData in
  let y := update h y ciphertext in
  let lens := N.lor (N.shiftl (8 * N.of_nat (length additionalData)) 64)
                    (8 * N.of_nat (length ciphertext)) in
  let y := mul (N.lxor y lens) h in
  xorBytes (bytes_of_N (be_unpack 16 y)) tagMask.

(** [gcmInc32]: add one to the last four bytes, a big-endian counter that
    wraps around. *)
Definition gcmInc32 (counter : bytes) : bytes :=
  firstn 12 counter ++
  bytes_of_N (be_unpack 4 ((be_pack (bytes_to_N (skipn 12 counter)) 0 + 1) mod 2 ^ 32)).

(** [gcm.deriveCounter] for a nonce of the standard size. *)
Definition deriveCounter (nonce : bytes) : bytes := nonce ++ [x00; x00; x00; x01].

(** [gcm.counterCrypt], block by block. *)
Fixpoint counterCrypt_blocks (g : gcm) (blocks : list bytes) (counter : bytes) : bytes :=
  match blocks with
  | [] => []
  | b :: r =>
      xorBytes b (Aes.Encrypt (cipher g) counter) ++
      counterCrypt_blocks g r (gcmInc32 counter)
  end.

Definition counterCrypt (g : gcm) (input counter : bytes) : bytes :=
  counterCrypt_blocks g (chunks 16 input) counter.

(** [gcm.Seal]: [dst] followed by the ciphertext and the tag. *)
Definition Seal (g : gcm) (dst nonce plaintext data : bytes) : result bytes :=
  if negb (length nonce =? NonceSize g)%nat then
    Panic "crypto/cipher: incorrect nonce length given to GCM"
  else if maxPlaintext <? N.of_nat (length plaintext) then
    Panic "crypto/cipher: message too large for GCM"
  else
    let counter := deriveCounter nonce in
    let tagMask := Aes.Encrypt (cipher g) counter in
    let out := counterCrypt g plaintext (gcmInc32 counter) in
    Ok (dst ++ out ++ auth g out data tagMask).

Definition errOpen : error := errors_New "cipher: message authentication failed".

(** [gcm.Open]: the plaintext, or [errOpen] when the input is too short,
    too long or its tag is not the expected one. *)
Definition Open (g : gcm) (dst nonce ciphertext data : bytes) : result bytes :=
  if negb (length nonce =? NonceSize g)%nat then
    Panic "crypto/cipher: incorrect nonce length given to GCM"
  else if (length ciphertext <? gcmTagSize)%nat then Err errOpen
  else if maxPlaintext + N.of_nat gcmTagSize <? N.of_nat (length ciphertext) then
    Err errOpen
  else
    let tag := skipn (length ciphertext - gcmTagSize) ciphertext in
    let ciphertext := firstn (length ciphertext - gcmTagSize) ciphertext in
    let counter := deriveCounter nonce in
    let tagMask := Aes.Encrypt (cipher g) counter in
    let expectedTag := auth g ciphertext data tagMask in
    if bool_decide (expectedTag = tag)
    then Ok (dst ++ counterCrypt g ciphertext (gcmInc32 counter))
    else Err errOpen.

End Gcm.

Definition gcm_seal_hex (key nonce plaintext : string) : result string :=
  g ← Gcm.NewGCM (Aes.NewCipher (unhex key));
  out ← Gcm.Seal g [] (unhex nonce) (unhex plaintext) [];
  Ok (hex_EncodeToString out).

(** ** The storage engine *)

#[global] Instance byte_countable : Countable byte.
Proof.
  refine (inj_countable' byte_to_N byte_of_N _).
  intros b. unfold byte_of_N, byte_to_N.
  rewrite N.mod_small by (pose proof (Byte.to_N_bounded b); lia).
  now rewrite Byte.of_to_N.
Defined.

(** Modelled from the spec: the key-value engine behind [basedb.IDb] is not
    among the sources. The spec has it as prefix-scoped get, set, delete and
    iterate-by-prefix over opaque byte keys and values. An entry lives under
    its prefix followed by its key, iteration visits the entries whose full
    key starts with the prefix, and the engine itself never fails. *)
Module Basedb.

Record Obj := MkObj { Key : bytes; Value : bytes }.

Definition Get (db : gmap bytes bytes) (prefix key : bytes)
  : Obj * bool * option error :=
  match db !! (prefix ++ key) with
  | Some v => (MkObj key v, true, None)
  | None => (MkObj [] [], false, None)
  end.

Definition Set_ (db : gmap bytes bytes) (prefix key value : bytes)
  : gmap bytes bytes * option error :=
  (<[prefix ++ key := value]> db, None).

Definition Delete (db : gmap bytes bytes) (prefix key : bytes)
  : gmap bytes bytes * option error :=
  (delete (prefix ++ key) db, None).

(** [bytes.HasPrefix]. *)
Definition HasPrefix (k prefix : bytes) : bool :=
  bool_decide (firstn (length prefix) k = prefix).

(** The entries that an iteration over [prefix] visits, in its order. *)
Definition collection (db : gmap bytes bytes) (prefix : bytes) : list Obj :=
  List.map (fun kv => MkObj (fst kv) (snd kv))
    (List.filter (fun kv => HasPrefix (fst kv) prefix) (map_to_list db)).

(** The loop of [GetAll]: the handler is called with the position and
    the entry, and its first error ends the iteration. The handler is a
    closure in the sources; what it captures is threaded as [acc]. *)
Fixpoint iterate {S : Type} (handler : nat -> Obj -> S -> S * option error)
         (i : nat) (objs : list Obj) (acc : S) : S * option error :=
  match objs with
  | [] => (acc, None)
  | o :: r =>
      match handler i o acc with
      | (acc', Some e) => (acc', Some e)
      | (acc', None) => iterate handler (Datatypes.S i) r acc'
      end
  end.

Definition GetAll {S : Type} (db : gmap bytes bytes) (prefix : bytes)
           (handler : nat -> Obj -> S -> S * option error) (acc : S)
  : S * option error :=
  iterate handler 0 (collection db prefix) acc.

(** [CountByCollection]. *)
Definition CountByCollection (db : gmap bytes bytes) (prefix : bytes)
  : Z * option error :=
  (Z.of_nat (length (collection db prefix)), None).

(** [RemoveAllByCollection]: every entry under the prefix goes. *)
Definition RemoveAllByCollection (db : gmap bytes bytes) (prefix : bytes)
  : gmap bytes bytes * option error :=
  (filter (fun kv => HasPrefix (fst kv) prefix = false) db, None).

(** The loop of [GetAll] for a handler that calls code which can panic. *)
Fixpoint iterate_result {S : Type} (handler : nat -> Obj -> S -> S * result unit)
         (i : nat) (objs : list Obj) (acc : S) : S * result unit :=
  match objs with
  | [] => (acc, Ok tt)
  | o :: r =>
      match handler i o acc with
      | (acc', Ok _) => iterate_result handler (Datatypes.S i) r acc'
      | (acc', other) => (acc', other)
      end
  end.

End Basedb.

(** ** Package ekm: the signer storage *)

(** [io.ReadFull] on a reader that delivers the bytes [r] and then ends. *)
Definition io_ReadFull (r : bytes) (n : nat) : result bytes :=
  if (n <=? length r)%nat then Ok (firstn n r)
  else if (length r =? 0)%nat then Err (errors_New "EOF")
  else Err (errors_New "unexpected EOF").

(** [ssz.MarshalUint64] and [ssz.UnmarshallUint64]: eight bytes,
    little-endian; reading fewer than eight bytes is an index out of
    range. *)
Definition ssz_MarshalUint64 (dst : bytes) (i : N) : bytes :=
  dst ++ bytes_of_N (le_unpack 8 i).

Definition ssz_UnmarshallUint64 (src : bytes) : result N :=
  if (length src <? 8)%nat then Panic "runtime error: index out of range"
  else Ok (le_pack (bytes_to_N (firstn 8 src))).

Module Ekm.

Definition prefix : string := "signer_data-".
Definition walletPrefix : string := prefix ++ "wallet-".
Definition walletPath : string := "wallet".
Definition accountsPrefix : string := prefix ++ "accounts-".
(** [fmt.Sprintf(accountsPath, id)] with [accountsPath = "accounts_%s"]. *)
Definition accountsPath (id : string) : string := "accounts_" ++ id.
Definition highestAttPrefix : string := prefix ++ "highest_att-".
Definition highestProposalPrefix : string := prefix ++ "highest_prop-".

(** The fields of [storage] that the methods read or write; the logger
    is left out, and the lock is held for the whole of every method, so
    a method is one step on this state. *)
Record storage := MkStorage {
  db : gmap bytes bytes;
  network : string;
  encryptionKey : string
}.

Definition with_db (s : storage) (d : gmap bytes bytes) : storage :=
  MkStorage d (network s) (encryptionKey s).

(** [core.Wallet] and [core.ValidatorAccount] are interfaces of the key
    manager library. The storage uses what [json.Marshal] makes of a
    value and, of an account, the text of its id. *)
Record Wallet := MkWallet { wallet_MarshalJSON : result bytes }.

Record ValidatorAccount := MkAccount {
  account_ID : string;
  account_MarshalJSON : result bytes
}.

Definition SetEncryptionKey (s : storage) (newKey : string) : storage :=
  MkStorage (db s) (network s) newKey.

Definition objPrefix (s : storage) (obj : string) : bytes :=
  bytes_of_string (network s ++ obj).

(** A database write as the last statement of a method. *)
Definition db_Set (s : storage) (pfx key value : bytes) : storage * result unit :=
  match Basedb.Set_ (db s) pfx key value with
  | (d, None) => (with_db s d, Ok tt)
  | (d, Some e) => (with_db s d, Err e)
  end.

Definition createHash (key : string) : string :=
  hex_EncodeToString (Md5.Sum (bytes_of_string key)).

(** [encrypt]; [rnd] is what [rand.Reader] delivers. The error of
    [aes.NewCipher] is dropped, as in the sources. *)
Definition encrypt (rnd : bytes) (data : bytes) (passphrase : string) : result bytes :=
  let block := Aes.NewCipher (bytes_of_string (createHash passphrase)) in
  gcm ← Gcm.NewGCM block;
  nonce ← io_ReadFull rnd (Gcm.NonceSize gcm);
  Gcm.Seal gcm nonce nonce data [].

Definition decrypt (data : bytes) (passphrase : string) : result bytes :=
  let key := bytes_of_string (createHash passphrase) in
  match Aes.NewCipher key with
  | None =>
      Err (errors_New ("crypto/aes: invalid key size " ++ pretty (length key)))
  | Some block =>
      gcm ← Gcm.NewGCM (Some block);
      let nonceSize := Gcm.NonceSize gcm in
      if (length data <? nonceSize)%nat then Err (errors_New "malformed ciphertext")
      else
        let nonce := firstn nonceSize data in
        let ciphertext := skipn nonceSize data in
        plaintext ← Gcm.Open gcm [] nonce ciphertext [];
        Ok plaintext
  end.

Definition wrap_result {A} (r : result A) (msg : string) : result A :=
  match r with
  | Err e => Err (WithMessage e msg)
  | other => other
  end.

Definition decryptData (s : storage) (objectValue : bytes) : result bytes :=
  if bool_decide (encryptionKey s <> EmptyString)
  then wrap_result (decrypt objectValue (encryptionKey s)) "failed to decrypt wallet"
  else Ok objectValue.

Definition encryptData (s : storage) (rnd : bytes) (objectValue : bytes) : result bytes :=
  if bool_decide (encryptionKey s <> EmptyString)
  then wrap_result (encrypt rnd objectValue (encryptionKey s)) "failed to encrypt wallet"
  else Ok objectValue.

(** [SaveWallet]: the marshalled wallet goes to the database as it is. *)
Definition SaveWallet (s : storage) (wallet : Wallet) : storage * result unit :=
  match wallet_MarshalJSON wallet with
  | Err e => (s, Err (WithMessage e "failed to marshal wallet"))
  | Panic m => (s, Panic m)
  | Ok data => db_Set s (objPrefix s walletPrefix) (bytes_of_string walletPath) data
  end.

(** [SaveAccount]: the marshalled account goes through [encryptData]. *)
Definition SaveAccount (s : storage) (rnd : bytes) (account : ValidatorAccount)
  : storage * result unit :=
  match account_MarshalJSON account with
  | Err e => (s, Err (WithMessage e "failed to marshal account"))
  | Panic m => (s, Panic m)
  | Ok data =>
      let key := accountsPath (account_ID account) in
      match encryptData s rnd data with
      | Err e => (s, Err e)
      | Panic m => (s, Panic m)
      | Ok encryptedValue =>
          db_Set s (objPrefix s accountsPrefix) (bytes_of_string key) encryptedValue
      end
  end.

Definition DeleteAccount (s : storage) (accountID : string) : storage * result unit :=
  let key := accountsPath accountID in
  match Basedb.Delete (db s) (objPrefix s accountsPrefix) (bytes_of_string key) with
  | (d, None) => (with_db s d, Ok tt)
  | (d, Some e) => (with_db s d, Err e)
  end.

Definition ErrCantDecrypt : error :=
  errors_New "can't decrypt stored wallet, wrong password?".

Section Decoding.

(** [json.Unmarshal] into [*hd.Wallet] and into [*wallets.HDAccount]. *)
Variable json_Unmarshal_Wallet : bytes -> result Wallet.
Variable json_Unmarshal_HDAccount : bytes -> result ValidatorAccount.

(** [OpenWallet]: the stored bytes are decoded as they are. *)
Definition OpenWallet (s : storage) : result Wallet :=
  match Basedb.Get (db s) (objPrefix s walletPrefix) (bytes_of_string walletPath) with
  | (_, false, _) => Err (errors_New "could not find wallet")
  | (_, true, Some e) => Err (WithMessage e "failed to open wallet")
  | (obj, true, None) =>
      if (length (Basedb.Value obj) =? 0)%nat
      then Err (errors_New "failed to open wallet")
      else wrap_result (json_Unmarshal_Wallet (Basedb.Value obj))
             "failed to unmarshal HD Wallet object"
  end.

Definition decodeAccount (byts : bytes) : result ValidatorAccount :=
  if (length byts =? 0)%nat then Err (errors_New "bytes are empty")
  else wrap_result (json_Unmarshal_HDAccount byts)
         "failed to unmarshal HD account object".

Definition OpenAccount (s : storage) (accountID : string) : result ValidatorAccount :=
  let key := accountsPath accountID in
  match Basedb.Get (db s) (objPrefix s accountsPrefix) (bytes_of_string key) with
  | (_, false, _) => Err (errors_New "account not found")
  | (_, true, Some e) => Err (WithMessage e "failed to open account")
  | (obj, true, None) =>
      match decryptData s (Basedb.Value obj) with
      | Err e => Err (WithMessage ErrCantDecrypt (Error e))
      | Panic m => Panic m
      | Ok decryptedData => decodeAccount decryptedData
      end
  end.

End Decoding.

(** [SaveHighestProposal]; a nil [pubKey] is [None], [phase0.Slot] is a
    [uint64]. *)
Definition SaveHighestProposal (s : storage) (pubKey : option bytes) (slot : N)
  : storage * result unit :=
  match pubKey with
  | None => (s, Err (errors_New "pubKey must not be nil"))
  | Some pk =>
      if slot =? 0
      then (s, Err (errors_New "invalid proposal slot, slot could not be 0"))
      else
        let data := ssz_MarshalUint64 [] slot in
        db_Set s (objPrefix s highestProposalPrefix) pk data
  end.

(** [RetrieveHighestProposal]: the slot, whether it was found, and the
    error. [errors.Wrap] of the nil [err] in the empty-value branch is
    nil. *)
Definition RetrieveHighestProposal (s : storage) (pubKey : option bytes)
  : result (N * bool * option error) :=
  match pubKey with
  | None => Ok (0, false, Some (errors_New "public key could not be nil"))
  | Some pk =>
      let '(obj, found, err) := Basedb.Get (db s) (objPrefix s highestProposalPrefix) pk in
      match err with
      | Some e =>
          Ok (0, found, errors_Wrap err "could not get highest proposal from db")
      | None =>
          if negb found then Ok (0, found, None)
          else if (length (Basedb.Value obj) =? 0)%nat
          then Ok (0, found, errors_Wrap err "highest proposal value is empty")
          else
            slot ← ssz_UnmarshallUint64 (Basedb.Value obj);
            Ok (slot, found, None)
      end
  end.

Definition RemoveHighestProposal (s : storage) (pubKey : bytes) : storage * result unit :=
  match Basedb.Delete (db s) (objPrefix s highestProposalPrefix) pubKey with
  | (d, None) => (with_db s d, Ok tt)
  | (d, Some e) => (with_db s d, Err e)
  end.

(** A blob is sealed under [key] when it is a nonce of the standard size
    followed by what [Seal] makes of the data with that nonce, under the
    AES key that [createHash] derives. *)
Definition gcm_sealed (key : string) (data blob : bytes) : Prop :=
  exists g nonce sealed,
    Gcm.NewGCM (Aes.NewCipher (bytes_of_string (createHash key))) = Ok g /\
    length nonce = Gcm.NonceSize g /\
    Gcm.Seal g [] nonce data [] = Ok sealed /\
    blob = nonce ++ sealed.

(** [CleanRegistryData]: the accounts collection is emptied. *)
Definition CleanRegistryData (s : storage) : storage * result unit :=
  match Basedb.RemoveAllByCollection (db s) (objPrefix s accountsPrefix) with
  | (d, None) => (with_db s d, Ok tt)
  | (d, Some e) => (with_db s d, Err e)
  end.

Definition Name (s : storage) : string := "SSV Storage".

Definition Network (s : storage) : string := network s.

Section Listing.

Variable json_Unmarshal_HDAccount : bytes -> result ValidatorAccount.

(** The closure that [ListAccounts] hands to [GetAll]; [ret] is the slice
    that it appends to. *)
Definition listAccountsHandler (s : storage) (i : nat) (obj : Basedb.Obj)
           (ret : list ValidatorAccount) : list ValidatorAccount * result unit :=
  match decryptData s (Basedb.Value obj) with
  | Err e => (ret, Err e)
  | Panic m => (ret, Panic m)
  | Ok value =>
      match decodeAccount json_Unmarshal_HDAccount value with
      | Err e => (ret, Err (WithMessage e "failed to list accounts"))
      | Panic m => (ret, Panic m)
      | Ok acc => (ret ++ [acc], Ok tt)
      end
  end.

(** [ListAccounts]: the accounts read so far, and the error. *)
Definition ListAccounts (s : storage) : list ValidatorAccount * result unit :=
  Basedb.iterate_result (listAccountsHandler s) 0
    (Basedb.collection (db s) (objPrefix s accountsPrefix)) [].

End Listing.

Section HighestAttestation.

(** [phase0.AttestationData] with its SSZ encoding, from the consensus
    client library. *)
Variable AttestationData : Type.
Variable MarshalSSZ : AttestationData -> result bytes.
Variable UnmarshalSSZ : bytes -> result AttestationData.

(** [SaveHighestAttestation]; a nil [pubKey] or a nil [attestation] is
    [None]. *)
Definition SaveHighestAttestation (s : storage) (pubKey : option bytes)
           (attestation : option AttestationData) : storage * result unit :=
  match pubKey with
  | None => (s, Err (errors_New "pubKey must not be nil"))
  | Some pk =>
      match attestation with
      | None => (s, Err (errors_New "attestation data could not be nil"))
      | Some att =>
          match MarshalSSZ att with
          | Err e => (s, Err (WithMessage e "failed to marshal attestation"))
          | Panic m => (s, Panic m)
          | Ok data => db_Set s (objPrefix s highestAttPrefix) pk data
          end
      end
  end.

(** [RetrieveHighestAttestation]: the attestation or nil, whether it was
    found, and the error. [errors.Wrap] of the nil [err] in the empty-value
    branch is nil. *)
Definition RetrieveHighestAttestation (s : storage) (pubKey : option bytes)
  : result (option AttestationData * bool * option error) :=
  match pubKey with
  | None => Ok (None, false, Some (errors_New "public key could not be nil"))
  | Some pk =>
      let '(obj, found, err) := Basedb.Get (db s) (objPrefix s highestAttPrefix) pk in
      match err with
      | Some e =>
          Ok (None, found, errors_Wrap err "could not get highest attestation from db")
      | None =>
          if negb found then Ok (None, false, None)
          else if (length (Basedb.Value obj) =? 0)%nat
          then Ok (None, found, errors_Wrap err "highest attestation value is empty")
          else
            match UnmarshalSSZ (Basedb.Value obj) with
            | Err e =>
                Ok (None, found,
                    Some (WithMessage e "could not unmarshal attestation data"))
            | Panic m => Panic m
            | Ok ret => Ok (Some ret, found, None)
            end
      end
  end.

End HighestAttestation.

Definition RemoveHighestAttestation (s : storage) (pubKey : bytes) : storage * result unit :=
  match Basedb.Delete (db s) (objPrefix s highestAttPrefix) pubKey with
  | (d, None) => (with_db s d, Ok tt)
  | (d, Some e) => (with_db s d, Err e)
  end.

End Ekm.

(** Two passphrases of 128 bytes with one MD5 digest (the collision of
    Wang and Yu, 2005). *)
Definition collidingPassphrase1 : string :=
  string_of_bytes (unhex
    ("d131dd02c5e6eec4693d9a0698aff95c2fcab58712467eab4004583eb8fb7f89" ++
     "55ad340609f4b30283e488832571415a085125e8f7cdc99fd91dbdf280373c5b" ++
     "d8823e3156348f5bae6dacd436c919c6dd53e2b487da03fd02396306d248cda0" ++
     "e99f33420f577ee8ce54b67080a80d1ec69821bcb6a8839396f9652b6ff72a70")).

Definition collidingPassphrase2 : string :=
  string_of_bytes (unhex
    ("d131dd02c5e6eec4693d9a0698aff95c2fcab50712467eab4004583eb8fb7f89" ++
     "55ad340609f4b30283e4888325f1415a085125e8f7cdc99fd91dbd7280373c5b" ++
     "d8823e3156348f5bae6dacd436c919c6dd53e23487da03fd02396306d248cda0" ++
     "e99f33420f577ee8ce54b67080280d1ec69821bcb6a8839396f965ab6ff72a70")).

(** A storage with an encryption key set, and a wallet, for examples. *)
Definition lockedStorage : Ekm.storage := Ekm.MkStorage ∅ "prater" "secret".

Definition plainWallet : Ekm.Wallet :=
  Ekm.MkWallet (Ok (bytes_of_string "{id:7d0a,type:HD,indexMapper:{}}")).

(** ** Package storage: the validator catalogue *)

Module Exporter.

Definition validatorsPrefix : bytes := bytes_of_string "validators".

Record OperatorNodeLink := MkOperatorNodeLink {
  ID : N;
  OperatorPublicKey : string
}.

Record ValidatorInformation := MkValidatorInformation {
  Index : Z;
  PublicKey : string;
  Operators : list OperatorNodeLink
}.

(** The assignment [validatorInformation.Index = i] through the pointer
    that the caller handed in. *)
Definition set_Index (vi : ValidatorInformation) (i : Z) : ValidatorInformation :=
  MkValidatorInformation i (PublicKey vi) (Operators vi).

(** The range of an [int64]. *)
Definition MaxInt64 : Z := 9223372036854775807.
Definition int64_ok (z : Z) : Prop := (- MaxInt64 - 1 <= z <= MaxInt64)%Z.

(** Modelled from the spec: [normalTo] is not among the sources. The spec
    has an upper bound of zero mean no upper bound; the comparison that
    follows is on [int64], whose largest value bounds every index. *)
Definition normalTo (to : Z) : Z :=
  if (to =? 0)%Z then MaxInt64 else to.

(** [validatorKey]: the prefix and the public key joined by a slash. *)
Definition validatorKey (pubKey : string) : bytes :=
  validatorsPrefix ++ bytes_of_string "/" ++ bytes_of_string pubKey.

(** The database handle of [storage]; the logger is left out, and the
    lock is held for the whole of every method. *)
Record storage := MkStorage { db : gmap bytes bytes }.

Section Catalogue.

(** [storagePrefix()] is not among the sources: any prefix. *)
Variable storagePrefix : bytes.

(** [json.Marshal] of a record, and [json.Unmarshal] into a record: the
    record as far as it was filled, and the error. *)
Variable json_Marshal : ValidatorInformation -> result bytes.
Variable json_Unmarshal : bytes -> ValidatorInformation * option error.

(** Modelled from the spec: [nextIndex] is not among the sources. The
    spec has the index assigned monotonically at first save; here it is
    the number of entries that the collection holds so far. *)
Definition nextIndex (s : storage) (prefix : bytes) : Z * option error :=
  Basedb.CountByCollection (db s) (storagePrefix ++ prefix).

(** The closure that [ListValidators] hands to [GetAll]; [validators]
    is the slice that it appends to. *)
Definition listHandler (from to : Z) (i : nat) (obj : Basedb.Obj)
           (validators : list ValidatorInformation)
  : list ValidatorInformation * option error :=
  match json_Unmarshal (Basedb.Value obj) with
  | (_, Some err) => (validators, Some err)
  | (vi, None) =>
      if ((from <=? Index vi) && (Index vi <=? to))%Z
      then (validators ++ [vi], None)
      else (validators, None)
  end.

Definition ListValidators (s : storage) (from to : Z)
  : list ValidatorInformation * option error :=
  let to := normalTo to in
  Basedb.GetAll (db s) (storagePrefix ++ validatorsPrefix) (listHandler from to) [].

(** The record is behind a pointer, nil when nothing was found. *)
Definition getValidatorInformationNotSafe (s : storage) (validatorPubKey : string)
  : option ValidatorInformation * bool * option error :=
  let '(obj, found, err) :=
    Basedb.Get (db s) storagePrefix (validatorKey validatorPubKey) in
  if negb found then (None, found, None)
  else
    match err with
    | Some e => (None, found, Some e)
    | None =>
        let '(vi, err) := json_Unmarshal (Basedb.Value obj) in
        (Some vi, found, err)
    end.

Definition GetValidatorInformation := getValidatorInformationNotSafe.

Definition saveValidatorNotSafe (s : storage) (val : ValidatorInformation)
  : storage * result unit :=
  match json_Marshal val with
  | Err e => (s, Err (WithMessage e "could not marshal validator information"))
  | Panic m => (s, Panic m)
  | Ok raw =>
      match Basedb.Set_ (db s) storagePrefix (validatorKey (PublicKey val)) raw with
      | (d, None) => (MkStorage d, Ok tt)
      | (d, Some e) => (MkStorage d, Err e)
      end
  end.

(** [SaveValidatorInformation]: the storage afterwards, the caller's
    record afterwards, and the error. *)
Definition SaveValidatorInformation (s : storage)
           (validatorInformation : ValidatorInformation)
  : storage * ValidatorInformation * result unit :=
  let '(info, found, err) :=
    getValidatorInformationNotSafe s (PublicKey validatorInformation) in
  match err with
  | Some e =>
      (s, validatorInformation,
       Err (WithMessage e "could not read information from DB"))
  | None =>
      if found then
        match info with
        | Some info => (s, set_Index validatorInformation (Index info), Ok tt)
        | None =>
            (s, validatorInformation,
             Panic "invalid memory address or nil pointer dereference")
        end
      else
        let '(idx, err) := nextIndex s validatorsPrefix in
        let validatorInformation := set_Index validatorInformation idx in
        match err with
        | Some e =>
            (s, validatorInformation,
             Err (WithMessage e "could not calculate next validator index"))
        | None =>
            let '(s', r) := saveValidatorNotSafe s validatorInformation in
            (s', validatorInformation, r)
        end
  end.

(** The states that saves lead to from a state [s0]. *)
Inductive saves (s0 : storage) : storage -> Prop :=
| saves_refl : saves s0 s0
| saves_step s vi :
    saves s0 s ->
    saves s0 (fst (fst (SaveValidatorInformation s vi))).

(** The records in the database, as [json.Unmarshal] reads them. *)
Definition stored (s : storage) : list ValidatorInformation :=
  List.map (fun obj => fst (json_Unmarshal (Basedb.Value obj)))
    (Basedb.collection (db s) (storagePrefix ++ validatorsPrefix)).

(** Every entry of the collection is readable, with an index below
    the number of entries. *)
Definition consistent (s : storage) : Prop :=
  let objs := Basedb.collection (db s) (storagePrefix ++ validatorsPrefix) in
  Forall (fun obj =>
            snd (json_Unmarshal (Basedb.Value obj)) = None /\
            (0 <= Index (fst (json_Unmarshal (Basedb.Value obj)))
             < Z.of_nat (length objs))%Z) objs.

(** What the catalogue needs of [encoding/json]: a record marshals, and
    what was marshalled unmarshals to a record with the same index. *)
Definition index_roundtrip : Prop :=
  forall v, exists raw,
    json_Marshal v = Ok raw /\
    snd (json_Unmarshal raw) = None /\
    Index (fst (json_Unmarshal raw)) = Index v.

(** Every entry of the collection is readable as a record whose index
    is an [int64]. *)
Definition readable (s : storage) : Prop :=
  Forall (fun obj =>
            snd (json_Unmarshal (Basedb.Value obj)) = None /\
            int64_ok (Index (fst (json_Unmarshal (Basedb.Value obj)))))
    (Basedb.collection (db s) (storagePrefix ++ validatorsPrefix)).

End Catalogue.

(** A small stand-in for [encoding/json], for examples: the index in
    unary, a zero byte in front of a negative one, a slash, and the
    public key. *)
Definition unaryMarshal (v : ValidatorInformation) : result bytes :=
  Ok ((if (Index v <? 0)%Z then [x00] else []) ++
      repeat x01 (Z.abs_nat (Index v)) ++
      bytes_of_string "/" ++ bytes_of_string (PublicKey v)).

Fixpoint count_ones (l : bytes) : nat :=
  match l with
  | x01 :: r => S (count_ones r)
  | _ => O
  end.

Definition unaryUnmarshal (raw : bytes) : ValidatorInformation * option error :=
  let '(neg, body) :=
    match raw with
    | x00 :: r => (true, r)
    | _ => (false, raw)
    end in
  let n := count_ones body in
  (MkValidatorInformation
     (if neg then (- Z.of_nat n)%Z else Z.of_nat n)
     (string_of_bytes (skipn (S n) body)) [],
   None).

End Exporter.

(** A catalogue for examples: two validators saved one after the other
    under the prefix of the exporter, with the stand-in encoding. *)
Definition exporterPrefix : bytes := bytes_of_string "exporter/".

Definition validatorA : Exporter.ValidatorInformation :=
  Exporter.MkValidatorInformation 0 "a1b2"
    [Exporter.MkOperatorNodeLink 1 "op1"; Exporter.MkOperatorNodeLink 2 "op2"].

Definition validatorB : Exporter.ValidatorInformation :=
  Exporter.MkValidatorInformation 0 "c3d4" [Exporter.MkOperatorNodeLink 3 "op3"].

(** The first validator again, with another operator. *)
Definition validatorA' : Exporter.ValidatorInformation :=
  Exporter.MkValidatorInformation 7 "a1b2" [Exporter.MkOperatorNodeLink 9 "op9"].

Definition unarySave :=
  Exporter.SaveValidatorInformation exporterPrefix
    Exporter.unaryMarshal Exporter.unaryUnmarshal.

Definition catalogue0 : Exporter.storage := Exporter.MkStorage ∅.
Definition catalogue1 : Exporter.storage := (unarySave catalogue0 validatorA).1.1.
Definition catalogue2 : Exporter.storage := (unarySave catalogue1 validatorB).1.1.

(** ** Messages, roles and identifiers *)

(** Modelled from the spec: the packages [message] and [beaconprotocol]
    that declare these types are not among the sources. The spec has a
    duty role (attester, proposer, ...), an identifier made of the
    validator public key and the role, and an envelope with a type among
    consensus, post-consensus and sync, an identifier and an opaque
    payload. The type of a message is an integer in Go, so a value outside
    the three constants is possible; it is [OtherMsgType]. *)
Inductive RoleType : Type :=
| RoleTypeUnknown
| RoleTypeAttester
| RoleTypeAggregator
| RoleTypeProposer.

#[global] Instance RoleType_eq_dec : EqDecision RoleType.
Proof. solve_decision. Defined.

#[global] Instance RoleType_countable : Countable RoleType.
Proof.
  refine (inj_countable'
            (fun r => match r with
                      | RoleTypeUnknown => 0%nat
                      | RoleTypeAttester => 1%nat
                      | RoleTypeAggregator => 2%nat
                      | RoleTypeProposer => 3%nat
                      end)
            (fun n => match n with
                      | 0%nat => RoleTypeUnknown
                      | 1%nat => RoleTypeAttester
                      | 2%nat => RoleTypeAggregator
                      | _ => RoleTypeProposer
                      end) _).
  intros []; reflexivity.
Defined.

Record Identifier := MkIdentifier {
  GetValidatorPK : bytes;
  GetRoleType : RoleType
}.

Inductive MsgType : Type :=
| SSVConsensusMsgType
| SSVPostConsensusMsgType
| SSVSyncMsgType
| OtherMsgType (n : N).

Record SSVMessage := MkSSVMessage {
  GetType : MsgType;
  GetIdentifier : Identifier;
  GetData : bytes
}.

(** ** The QBFT instance and its controller *)

(** Modelled from the spec: the QBFT instance and the controller that owns
    it (packages [qbft] and [controller], of which only the controllers
    map is among the sources). The spec has the instance hold the current
    round, the height, the decision once there is one, the accepted
    proposals and the tallies of prepare and commit votes. A message is
    checked for its signature and its signers; after the decision it is
    accepted without effect; before it a message of an earlier round is
    stale; a quorum of commits for one round and value marks the instance
    decided and returns the decided value with its signers, that once. The
    controller stores a decision when the instance returns one. *)
Module Qbft.

Inductive MessageKind : Type :=
| ProposalMsg
| PrepareMsg
| CommitMsg
| RoundChangeMsg.

Record SignedMessage := MkSignedMessage {
  Kind : MessageKind;
  Round : N;
  Height : N;
  Value : bytes;
  Signers : list N;
  Signature : bytes
}.

Record Decision := MkDecision {
  decidedValue : bytes;
  decidedRound : N;
  decidedSigners : list N
}.

(** A vote in a tally: the round, the value and the operator. *)
Record Vote := MkVote { voteRound : N; voteValue : bytes; voter : N }.

#[global] Instance Vote_eq_dec : EqDecision Vote.
Proof. solve_decision. Defined.

Record Instance := MkInstance {
  currentRound : N;
  height : N;
  decided : option Decision;
  proposalAccepted : list (N * bytes);
  prepares : list Vote;
  commits : list Vote;
  roundChanges : list Vote;
  operators : list N;
  quorum : nat
}.

Definition InvalidSignatureError : error := errors_New "invalid signature".
Definition UnknownSignerError : error := errors_New "unknown signer".
Definition StaleRoundError : error := errors_New "stale round".
Definition WrongHeightError : error := errors_New "wrong height".

(** A fresh instance for a height: round 1, nothing decided. *)
Definition Start (ops : list N) (q : nat) (h : N) : Instance :=
  MkInstance 1 h None [] [] [] [] ops q.

(** The votes of a message, one per signer that is not yet in the
    tally. *)
Definition add_votes (msg : SignedMessage) (tally : list Vote) : list Vote :=
  fold_left
    (fun t s =>
       let v := MkVote (Round msg) (Value msg) s in
       if bool_decide (v ∈ t) then t else t ++ [v])
    (Signers msg) tally.

(** The operators that voted for a round and a value. *)
Definition voters (r : N) (v : bytes) (tally : list Vote) : list N :=
  List.map voter
    (List.filter (fun x => bool_decide (voteRound x = r /\ voteValue x = v)) tally).

Definition known_signers (i : Instance) (msg : SignedMessage) : bool :=
  negb (bool_decide (Signers msg = [])) &&
  forallb (fun s => bool_decide (s ∈ operators i)) (Signers msg).

Section Verification.

(** The check of the signature against the declared signers. *)
Variable verify : SignedMessage -> bool.

(** [ProcessMessage]: the instance afterwards and the decision, when
    this message brought it. *)
Definition ProcessMessage (i : Instance) (msg : SignedMessage)
  : result (Instance * option Decision) :=
  if negb (verify msg) then Err InvalidSignatureError
  else if negb (known_signers i msg) then Err UnknownSignerError
  else if negb (Height msg =? height i) then Err WrongHeightError
  else
    match decided i with
    | Some _ => Ok (i, None)
    | None =>
        if Round msg <? currentRound i then Err StaleRoundError
        else
          match Kind msg with
          | ProposalMsg =>
              let accepted :=
                if existsb (fun p => fst p =? Round msg) (proposalAccepted i)
                then proposalAccepted i
                else proposalAccepted i ++ [(Round msg, Value msg)] in
              Ok (MkInstance (currentRound i) (height i) None accepted
                    (prepares i) (commits i) (roundChanges i)
                    (operators i) (quorum i), None)
          | PrepareMsg =>
              Ok (MkInstance (currentRound i) (height i) None
                    (proposalAccepted i) (add_votes msg (prepares i))
                    (commits i) (roundChanges i) (operators i) (quorum i), None)
          | CommitMsg =>
              let tally := add_votes msg (commits i) in
              let who := voters (Round msg) (Value msg) tally in
              if (quorum i <=? length who)%nat then
                let d := MkDecision (Value msg) (Round msg) who in
                Ok (MkInstance (currentRound i) (height i) (Some d)
                      (proposalAccepted i) (prepares i) tally
                      (roundChanges i) (operators i) (quorum i), Some d)
              else
                Ok (MkInstance (currentRound i) (height i) None
                      (proposalAccepted i) (prepares i) tally
                      (roundChanges i) (operators i) (quorum i), None)
          | RoundChangeMsg =>
              let tally := add_votes msg (roundChanges i) in
              let who := List.filter (fun x => bool_decide (voteRound x = Round msg)) tally in
              let r :=
                if (quorum i <=? length who)%nat then Round msg
                else currentRound i in
              Ok (MkInstance r (height i) None
                    (proposalAccepted i) (prepares i) (commits i) tally
                    (operators i) (quorum i), None)
          end
    end.

End Verification.

(** The controller of one role: its identifier, the live instance and
    the decisions that it stored. *)
Record Controller := MkController {
  Identifier_ : Identifier;
  instance : Instance;
  decidedStore : list Decision
}.

(** [controller.New]: a controller with a fresh instance and nothing
    stored. *)
Definition New (role : RoleType) (identifier : Identifier)
           (ops : list N) (q : nat) : Controller :=
  MkController identifier (Start ops q 0) [].

Section Processing.

Variable verify : SignedMessage -> bool.

(** [ProcessConsensusMessage]: forward to the instance and store the
    decision that comes back. *)
Definition ProcessConsensusMessage (c : Controller) (msg : SignedMessage)
  : Controller * result unit :=
  match ProcessMessage verify (instance c) msg with
  | Ok (i, Some d) => (MkController (Identifier_ c) i (d :: decidedStore c), Ok tt)
  | Ok (i, None) => (MkController (Identifier_ c) i (decidedStore c), Ok tt)
  | Err e => (c, Err e)
  | Panic m => (c, Panic m)
  end.

End Processing.

(** What a controller has stored: at most one decision, and none while
    its instance is undecided. *)
Definition stored_once (c : Controller) : Prop :=
  (length (decidedStore c) <= 1)%nat /\
  (decided (instance c) = None -> decidedStore c = []).

End Qbft.

(** ** Package controller: the controllers map *)

Module Controller.

(** [Controllers]: a map from the role to the controller. *)
Definition ControllerForIdentifier (c : gmap RoleType Qbft.Controller)
           (identifier : Identifier) : option Qbft.Controller :=
  let role := GetRoleType identifier in
  c !! role.

End Controller.

(** ** Package validator: the validator runtime *)

Module Validator.

(** Modelled from the spec: [message.Share] is not among the sources; of
    a share the runtime uses the validator public key, the node id, and
    the operators with the quorum that the instance is set up with. *)
Record Share := MkShare {
  PublicKey : bytes;
  NodeID : N;
  Committee : list N;
  Quorum : nat
}.

(** Modelled from the spec: the queue worker (package [worker]) is not
    among the sources. The spec has a queue of fixed capacity whose
    [TryEnqueue] never blocks and drops the message when the queue is
    full. *)
Record Worker := MkWorker {
  Buffer : nat;
  queue : list SSVMessage
}.

Definition TryEnqueue (w : Worker) (msg : SSVMessage) : Worker * bool :=
  if (length (queue w) <? Buffer w)%nat
  then (MkWorker (Buffer w) (queue w ++ [msg]), true)
  else (w, false).

Section Runtime.

(** What the rest of the package provides: the state of the signature
    collection, the post-consensus message and its decoding, the
    decoding and the validation of a signed message, the validation of
    an envelope, and the handling of a partial signature, which works
    on the signature state. *)
Variable SignatureState : Type.
Variable newSignatureState : N -> SignatureState.
Variable SignedPostConsensusMessage : Type.
Variable verify : Qbft.SignedMessage -> bool.
Variable validateMessage : Share -> SSVMessage -> option error.
Variable decodeSignedMessage : bytes -> result Qbft.SignedMessage.
Variable decodePostConsensus : bytes -> result SignedPostConsensusMessage.
Variable processPostConsensusSig :
  SignatureState -> option Qbft.Controller -> SignedPostConsensusMessage ->
  SignatureState * result unit.

Record Options := MkOptions {
  optShare : Share;
  SignatureCollectionTimeout : N;
  ReadMode : bool
}.

Record Validator := MkValidator {
  share : Share;
  worker : Worker;
  signatureState : SignatureState;
  ibfts : gmap RoleType Qbft.Controller;
  readMode : bool
}.

Definition setupIbftController (role : RoleType) (opt : Options) : Qbft.Controller :=
  let identifier := MkIdentifier (PublicKey (optShare opt)) role in
  Qbft.New role identifier (Committee (optShare opt)) (Quorum (optShare opt)).

(** [setupIbfts]: the map gets one entry, for the attester role. *)
Definition setupIbfts (opt : Options) : gmap RoleType Qbft.Controller :=
  <[RoleTypeAttester := setupIbftController RoleTypeAttester opt]> ∅.

Definition NewValidator (opt : Options) : Validator :=
  MkValidator (optShare opt) (MkWorker 100 [])
              (newSignatureState (SignatureCollectionTimeout opt))
              (setupIbfts opt) (ReadMode opt).

Definition GetShare (v : Validator) : Share := share v.

(** Modelled from the spec: [processConsensusMsg] is not among the
    sources. The spec has the caller drop the message when there is no
    controller for the role, and the controller forward it to the
    instance otherwise. *)
Definition processConsensusMsg (v : Validator) (ibftController : option Qbft.Controller)
           (signedMsg : Qbft.SignedMessage) : Validator * result unit :=
  match ibftController with
  | None => (v, Ok tt)
  | Some c =>
      let '(c', r) := Qbft.ProcessConsensusMessage verify c signedMsg in
      (MkValidator (share v) (worker v) (signatureState v)
                   (<[GetRoleType (Qbft.Identifier_ c) := c']> (ibfts v))
                   (readMode v), r)
  end.

(** [messageHandler]. A message that fails the validation is logged
    and the handler returns nil; the sync branch panics. *)
Definition messageHandler (v : Validator) (msg : SSVMessage) : Validator * result unit :=
  match validateMessage (share v) msg with
  | Some err => (v, Ok tt)
  | None =>
      let ibftController :=
        Controller.ControllerForIdentifier (ibfts v) (GetIdentifier msg) in
      match GetType msg with
      | SSVConsensusMsgType =>
          match decodeSignedMessage (GetData msg) with
          | Err e =>
              (v, Err (WithMessage e
                         "could not get post consensus Message from SSVMessage"))
          | Panic m => (v, Panic m)
          | Ok signedMsg => processConsensusMsg v ibftController signedMsg
          end
      | SSVPostConsensusMsgType =>
          match decodePostConsensus (GetData msg) with
          | Err e =>
              (v, Err (WithMessage e
                         "could not get post consensus Message from network Message"))
          | Panic m => (v, Panic m)
          | Ok signedMsg =>
              let '(st, r) :=
                processPostConsensusSig (signatureState v) ibftController signedMsg in
              (MkValidator (share v) (worker v) st (ibfts v) (readMode v), r)
          end
      | SSVSyncMsgType => (v, Panic "need to implement!")
      | OtherMsgType _ => (v, Ok tt)
      end
  end.

(** The error of the handler is dropped by its callers; a panic is
    not an error and goes on unwinding. *)
Definition swallow (r : result unit) : result unit :=
  match r with
  | Panic m => Panic m
  | _ => Ok tt
  end.

(** [ProcessMsg]. In read mode the handler runs inline and its error is
    dropped. Otherwise the message goes to the queue of the worker; the
    switch over the identifier before that has no case that compiles
    (two comments in the place of the case expressions, and queues
    that [Validator] does not have), so the enqueue on the worker is
    what is left of the branch. *)
Definition ProcessMsg (v : Validator) (msg : SSVMessage) : Validator * result unit :=
  if readMode v then
    let '(v', err) := messageHandler v msg in
    (v', swallow err)
  else
    let '(w, _) := TryEnqueue (worker v) msg in
    (MkValidator (share v) w (signatureState v) (ibfts v) (readMode v), Ok tt).

(** Modelled from the spec: the worker that [Start] hands the handler
    to takes the messages off the queue one at a time, calls the
    handler and drops its error. *)
Definition workerStep (v : Validator) : Validator * result unit :=
  match queue (worker v) with
  | [] => (v, Ok tt)
  | msg :: rest =>
      let v1 := MkValidator (share v) (MkWorker (Buffer (worker v)) rest)
                            (signatureState v) (ibfts v) (readMode v) in
      let '(v2, err) := messageHandler v1 msg in
      (v2, swallow err)
  end.

(** What happens to a validator: a message arrives, or the worker takes
    one off the queue. *)
Inductive event : Type :=
| Deliver (msg : SSVMessage)
| Drain.

Definition step (v : Validator) (e : event) : Validator * result unit :=
  match e with
  | Deliver msg => ProcessMsg v msg
  | Drain => workerStep v
  end.

(** A run ends with its events or with the first panic. *)
Fixpoint run (v : Validator) (es : list event) : Validator :=
  match es with
  | [] => v
  | e :: rest =>
      match step v e with
      | (v', Panic _) => v'
      | (v', _) => run v' rest
      end
  end.

End Runtime.

End Validator.

(** A validator for examples: four operators with a quorum of three; every
    envelope passes the validation and every signature verifies; the
    payload of a consensus message is read as a commit of round 1 whose
    first byte is the signer and whose rest is the value. *)
Definition exampleShare : Validator.Share :=
  Validator.MkShare (unhex "a1b2") 1 [1; 2; 3; 4] 3.

Definition exampleDecode (data : bytes) : result Qbft.SignedMessage :=
  match data with
  | [] => Err (errors_New "unexpected end of input")
  | b :: value =>
      Ok (Qbft.MkSignedMessage Qbft.CommitMsg 1 0 value [byte_to_N b] [])
  end.

Definition exampleHandlePartial (st : unit) (c : option Qbft.Controller) (m : bytes)
  : unit * result unit := (tt, Ok tt).

Definition exampleValidator (readMode : bool) : Validator.Validator unit :=
  Validator.NewValidator unit (fun _ => tt)
    (Validator.MkOptions exampleShare 5 readMode).

Definition exampleProcessMsg :=
  Validator.ProcessMsg unit bytes (fun _ => true) (fun _ _ => None)
    exampleDecode (fun b => Ok b) exampleHandlePartial.

Definition exampleRun :=
  Validator.run unit bytes (fun _ => true) (fun _ _ => None)
    exampleDecode (fun b => Ok b) exampleHandlePartial.

Definition attesterId : Identifier := MkIdentifier (unhex "a1b2") RoleTypeAttester.
Definition proposerId : Identifier := MkIdentifier (unhex "a1b2") RoleTypeProposer.

(** A commit for the value [77] by the operator [signer]. *)
Definition commitFrom (signer : byte) : SSVMessage :=
  MkSSVMessage SSVConsensusMsgType attesterId [signer; x77].

Definition syncMessage : SSVMessage :=
  MkSSVMessage SSVSyncMsgType attesterId [].

(** An account, the bytes of the random source and a decoder for the
    examples of the signer storage: the storage with one account saved
    under the key, the same storage after the key was changed, and the
    entries of its accounts collection. *)
Definition exampleAccount : Ekm.ValidatorAccount :=
  Ekm.MkAccount "7d0a" (Ok (bytes_of_string "account")).

Definition exampleEntropy : bytes := unhex "0102030405060708090a0b0c0d0e".

Definition exampleUnmarshal (b : bytes) : result Ekm.ValidatorAccount :=
  Ok (Ekm.MkAccount "7d0a" (Ok b)).

Definition lockedStorage1 : Ekm.storage :=
  fst (Ekm.SaveAccount lockedStorage exampleEntropy exampleAccount).


Definition lockedStorage1_accounts : list Basedb.Obj :=
  Eval vm_compute in
    Basedb.collection (Ekm.db lockedStorage1)
      (Ekm.objPrefix lockedStorage1 Ekm.accountsPrefix).

(** More of the example catalogue: a validator without operators, a
    decoder that fails on no input as [json.Unmarshal] does, an encoder
    that fails, and a catalogue whose only entry has no bytes. *)
Definition validatorC : Exporter.ValidatorInformation :=
  Exporter.MkValidatorInformation 0 "e5f6" [].

Definition strictUnmarshal (raw : bytes) : Exporter.ValidatorInformation * option error :=
  match raw with
  | [] => (Exporter.MkValidatorInformation 0 EmptyString [],
           Some (errors_New "unexpected end of JSON input"))
  | _ => Exporter.unaryUnmarshal raw
  end.


Definition corruptCatalogue : Exporter.storage :=
  Exporter.MkStorage {[ exporterPrefix ++ Exporter.validatorKey "a1b2" := [] ]}.

(** * Properties *)

(** ** The library models against their published test vectors *)

Example md5_empty :
  hex_EncodeToString (Md5.Sum (bytes_of_string EmptyString)) =
  "d41d8cd98f00b204e9800998ecf8427e"%string.
Proof. vm_compute. reflexivity. Qed.

Example md5_abc :
  hex_EncodeToString (Md5.Sum (bytes_of_string "abc")) =
  "900150983cd24fb0d6963f7d28e17f72"%string.
Proof. vm_compute. reflexivity. Qed.

(** FIPS 197, appendix C.1 and C.3. *)
Example aes128_fips197 :
  aes_encrypt_hex "000102030405060708090a0b0c0d0e0f"
                  "00112233445566778899aabbccddeeff"
  = Some "69c4e0d86a7b0430d8cdb78070b4c55a"%string.
Proof. vm_compute. reflexivity. Qed.

Example aes256_fips197 :
  aes_encrypt_hex "000102030405060708090a0b0c0d0e0f101112131415161718191a1b1c1d1e1f"
                  "00112233445566778899aabbccddeeff"
  = Some "8ea2b7ca516745bfeafc49904b496089"%string.
Proof. vm_compute. reflexivity. Qed.

(** Test cases 2, 13 and 14 of the GCM specification. *)
Example gcm_test_case_2 :
  gcm_seal_hex "00000000000000000000000000000000" "000000000000000000000000"
               "00000000000000000000000000000000"
  = Ok "0388dace60b6a392f328c2b971b2fe78ab6e47d42cec13bdf53a67b21257bddf"%string.
Proof. vm_compute. reflexivity. Qed.

Example gcm_test_case_13 :
  gcm_seal_hex "0000000000000000000000000000000000000000000000000000000000000000"
               "000000000000000000000000" EmptyString
  = Ok "530f8afbc74536b9a963b4f1c4cb738b"%string.
Proof. vm_compute. reflexivity. Qed.

Example gcm_test_case_14 :
  gcm_seal_hex "0000000000000000000000000000000000000000000000000000000000000000"
               "000000000000000000000000" "00000000000000000000000000000000"
  = Ok "cea7403d4d606b6e074ec5d3baf39d18d0d1c8a799996bf0265b98b5d48ab919"%string.
Proof. vm_compute. reflexivity. Qed.

(** ** Bytes, blocks and the counter mode *)

Lemma byte_xor_involutive (a k : byte) : byte_xor (byte_xor a k) k = a.
Proof.
  unfold byte_xor.
  destruct (Byte.to_bits a) as (a0 & a1 & a2 & a3 & a4 & a5 & a6 & a7) eqn:Ea.
  destruct (Byte.to_bits k) as (k0 & k1 & k2 & k3 & k4 & k5 & k6 & k7) eqn:Ek.
  rewrite Byte.to_bits_of_bits.
  rewrite <- (Byte.of_bits_to_bits a), Ea.
  rewrite !xorb_assoc, !xorb_nilpotent, !xorb_false_r.
  reflexivity.
Qed.

Lemma length_xorBytes (a b : bytes) :
  length (xorBytes a b) = Nat.min (length a) (length b).
Proof.
  revert b; induction a as [|x a IH]; intros [|y b]; simpl; auto.
Qed.

Lemma xorBytes_involutive (a k : bytes) :
  (length a <= length k)%nat -> xorBytes (xorBytes a k) k = a.
Proof.
  revert k; induction a as [|x a IH]; intros [|y k] Hlen; simpl in *;
    try reflexivity; try lia.
  rewrite byte_xor_involutive, IH by lia. reflexivity.
Qed.

Lemma length_le_unpack (n : nat) (w : N) : length (le_unpack n w) = n.
Proof. revert w; induction n; intros; simpl; auto. Qed.

Lemma length_be_unpack (n : nat) (w : N) : length (be_unpack n w) = n.
Proof. induction n; simpl; auto. Qed.

Lemma chunks_fuel_irrelevant {A} (n : nat) :
  (0 < n)%nat ->
  forall (f : nat) (l : list A) (f' : nat),
    (length l <= f)%nat -> (length l <= f')%nat ->
    chunks_fuel f n l = chunks_fuel f' n l.
Proof.
  intros Hn f; induction f as [|f IH]; intros l f' Hf Hf'.
  - destruct l; simpl in Hf; [|lia]. destruct f'; reflexivity.
  - destruct l as [|a l]; [destruct f'; reflexivity|].
    destruct f' as [|f']; simpl in Hf'; [lia|].
    simpl in Hf. cbn [chunks_fuel]. f_equal.
    apply IH; rewrite length_skipn; simpl; lia.
Qed.

Lemma chunks_nil {A} (n : nat) : chunks n (@nil A) = [].
Proof. reflexivity. Qed.

Lemma chunks_cons {A} (n : nat) (l : list A) :
  (0 < n)%nat -> l <> [] ->
  chunks n l = firstn n l :: chunks n (skipn n l).
Proof.
  intros Hn Hl. unfold chunks. destruct l as [|a l]; [congruence|].
  cbn [length chunks_fuel]. f_equal.
  apply chunks_fuel_irrelevant; auto; rewrite length_skipn; simpl; lia.
Qed.

Lemma length_Aes_Encrypt (c : Aes.Block) (src : bytes) :
  length (Aes.Encrypt c src) = 16%nat.
Proof.
  unfold Aes.Encrypt, Aes.final_round, Aes.AddRoundKey, bytes_of_N.
  rewrite !length_map. apply length_seq.
Qed.

Section CounterMode.

Variable g : Gcm.gcm.

Lemma counterCrypt_nil (counter : bytes) : Gcm.counterCrypt g [] counter = [].
Proof. reflexivity. Qed.

Lemma counterCrypt_cons (input counter : bytes) :
  input <> [] ->
  Gcm.counterCrypt g input counter =
  xorBytes (firstn 16 input) (Aes.Encrypt (Gcm.cipher g) counter) ++
  Gcm.counterCrypt g (skipn 16 input) (Gcm.gcmInc32 counter).
Proof.
  intros H. unfold Gcm.counterCrypt. rewrite chunks_cons by (auto; lia).
  reflexivity.
Qed.

Lemma length_counterCrypt_bounded (k : nat) :
  forall input counter, (length input <= k)%nat ->
    length (Gcm.counterCrypt g input counter) = length input.
Proof.
  induction k as [|k IH]; intros input counter Hk.
  - destruct input; simpl in Hk; [reflexivity|lia].
  - destruct input as [|b input]; [reflexivity|].
    rewrite counterCrypt_cons by discriminate.
    rewrite length_app, length_xorBytes, length_Aes_Encrypt, IH;
      rewrite ?length_skipn, ?length_firstn; simpl in *; try lia.
    pose proof (firstn_skipn 16 (b :: input)) as E.
    apply (f_equal (@length byte)) in E.
    rewrite length_app, length_firstn, length_skipn in E. simpl in *. lia.
Qed.

Lemma length_counterCrypt (input counter : bytes) :
  length (Gcm.counterCrypt g input counter) = length input.
Proof. apply (length_counterCrypt_bounded (length input)); lia. Qed.

(** Counter mode is its own inverse: the key stream depends on the
    counter and on the length only. *)
Lemma counterCrypt_involutive_bounded (k : nat) :
  forall input counter, (length input <= k)%nat ->
    Gcm.counterCrypt g (Gcm.counterCrypt g input counter) counter = input.
Proof.
  induction k as [|k IH]; intros input counter Hk.
  - destruct input; simpl in Hk; [reflexivity|lia].
  - destruct input as [|b input]; [reflexivity|].
    rewrite (counterCrypt_cons (b :: input)) by discriminate.
    set (ks := Aes.Encrypt (Gcm.cipher g) counter).
    set (hd := firstn 16 (b :: input)).
    set (tl := skipn 16 (b :: input)).
    assert (Hks : length ks = 16%nat) by apply length_Aes_Encrypt.
    assert (Hhd : (length hd <= 16)%nat)
      by (unfold hd; rewrite length_firstn; lia).
    assert (Hhd0 : (0 < length hd)%nat)
      by (unfold hd; rewrite length_firstn; simpl; lia).
    assert (Htl : (length tl <= k)%nat)
      by (unfold tl; rewrite length_skipn; simpl in *; lia).
    assert (Hsplit : length hd = 16%nat \/ tl = []).
    { unfold hd, tl. rewrite length_firstn.
      destruct (le_lt_dec 16 (length (b :: input))); [left; lia|right].
      apply skipn_all2. lia. }
    set (A := xorBytes hd ks).
    set (B := Gcm.counterCrypt g tl (Gcm.gcmInc32 counter)).
    assert (HA : length A = length hd)
      by (unfold A; rewrite length_xorBytes; lia).
    assert (Hfirst : firstn 16 (A ++ B) = A /\ skipn 16 (A ++ B) = B).
    { destruct Hsplit as [H16 | Hnil].
      - split.
        + rewrite firstn_app, firstn_all2 by lia.
          replace (16 - length A)%nat with 0%nat by lia.
          rewrite firstn_O. apply app_nil_r.
        + rewrite skipn_app, skipn_all2 by lia.
          replace (16 - length A)%nat with 0%nat by lia. reflexivity.
      - unfold B. rewrite Hnil, counterCrypt_nil, app_nil_r.
        split; [apply firstn_all2|apply skipn_all2]; lia. }
    destruct Hfirst as [Hf Hs].
    rewrite counterCrypt_cons
      by (intros E; apply (f_equal (@length byte)) in E;
          rewrite length_app in E; simpl in E; lia).
    rewrite Hf, Hs. fold ks. unfold A, B.
    rewrite xorBytes_involutive by lia.
    rewrite IH by exact Htl.
    apply firstn_skipn.
Qed.

Lemma counterCrypt_involutive (input counter : bytes) :
  Gcm.counterCrypt g (Gcm.counterCrypt g input counter) counter = input.
Proof. apply (counterCrypt_involutive_bounded (length input)); lia. Qed.

Lemma length_auth (ciphertext additionalData tagMask : bytes) :
  length tagMask = 16%nat ->
  length (Gcm.auth g ciphertext additionalData tagMask) = 16%nat.
Proof.
  intros H. unfold Gcm.auth, bytes_of_N.
  rewrite length_xorBytes, length_map, length_be_unpack. lia.
Qed.

(** [Open] undoes [Seal]. *)
Lemma Open_Seal (nonce plaintext : bytes) :
  length nonce = 12%nat ->
  N.of_nat (length plaintext) <= Gcm.maxPlaintext ->
  exists sealed,
    Gcm.Seal g nonce nonce plaintext [] = Ok (nonce ++ sealed) /\
    length sealed = (length plaintext + 16)%nat /\
    Gcm.Open g [] nonce sealed [] = Ok plaintext.
Proof.
  intros Hn Hmax.
  set (counter := Gcm.deriveCounter nonce).
  set (tagMask := Aes.Encrypt (Gcm.cipher g) counter).
  set (out := Gcm.counterCrypt g plaintext (Gcm.gcmInc32 counter)).
  set (tag := Gcm.auth g out [] tagMask).
  assert (Hout : length out = length plaintext) by apply length_counterCrypt.
  assert (Htag : length tag = 16%nat)
    by (apply length_auth, length_Aes_Encrypt).
  exists (out ++ tag). split; [|split].
  - unfold Gcm.Seal, Gcm.NonceSize, Gcm.gcmStandardNonceSize.
    rewrite Hn. cbn [Nat.eqb negb].
    destruct (N.ltb_spec Gcm.maxPlaintext (N.of_nat (length plaintext))); [lia|].
    reflexivity.
  - rewrite length_app. lia.
  - unfold Gcm.Open, Gcm.NonceSize, Gcm.gcmStandardNonceSize, Gcm.gcmTagSize.
    rewrite Hn. cbn [Nat.eqb negb].
    rewrite length_app, Hout, Htag.
    destruct (Nat.ltb_spec (length plaintext + 16) 16); [lia|].
    destruct (N.ltb_spec (Gcm.maxPlaintext + N.of_nat 16)
                (N.of_nat (length plaintext + 16))); [lia|].
    replace (length plaintext + 16 - 16)%nat with (length out) by lia.
    rewrite skipn_app, skipn_all, firstn_app, firstn_all, Nat.sub_diag.
    cbn [skipn firstn app]. rewrite app_nil_r.
    fold counter tagMask tag.
    rewrite bool_decide_eq_true_2 by reflexivity.
    unfold out. rewrite counterCrypt_involutive. reflexivity.
Qed.

End CounterMode.

(** ** Package ekm: keys, encryption and decryption *)

Lemma length_bytes_of_string (s : string) :
  length (bytes_of_string s) = String.length s.
Proof.
  unfold bytes_of_string, list_byte_of_string. rewrite length_map.
  induction s; simpl; auto.
Qed.

Lemma length_hex_EncodeToString (b : bytes) :
  String.length (hex_EncodeToString b) = (2 * length b)%nat.
Proof. induction b; simpl; [reflexivity|]. rewrite IHb. lia. Qed.

Lemma length_Md5_Sum (msg : bytes) : length (Md5.Sum msg) = 16%nat.
Proof.
  unfold Md5.Sum.
  destruct (fold_left Md5.block _ Md5.init) as [a b c d].
  unfold bytes_of_N. rewrite length_map, !length_app, !length_le_unpack.
  reflexivity.
Qed.

Lemma length_createHash (passphrase : string) :
  length (bytes_of_string (Ekm.createHash passphrase)) = 32%nat.
Proof.
  unfold Ekm.createHash.
  rewrite length_bytes_of_string, length_hex_EncodeToString, length_Md5_Sum.
  reflexivity.
Qed.

(** The derived key always has a size that [aes.NewCipher] accepts. *)
Lemma NewCipher_createHash (passphrase : string) :
  exists block,
    Aes.NewCipher (bytes_of_string (Ekm.createHash passphrase)) = Some block.
Proof.
  unfold Aes.NewCipher. rewrite length_createHash. eexists. reflexivity.
Qed.

Lemma Seal_dst (g : Gcm.gcm) (dst nonce plaintext : bytes) (sealed : bytes) :
  Gcm.Seal g dst nonce plaintext [] = Ok (dst ++ sealed) ->
  Gcm.Seal g [] nonce plaintext [] = Ok sealed.
Proof.
  unfold Gcm.Seal.
  destruct (negb _); [discriminate|].
  destruct (_ <? _); [discriminate|].
  intros H. injection H as H. apply app_inv_head in H. rewrite H. reflexivity.
Qed.

(** What [encrypt] and [decrypt] come to once the key is known to be
    accepted. *)
Lemma encrypt_unfold (rnd data : bytes) (passphrase : string) (block : Aes.Block) :
  Aes.NewCipher (bytes_of_string (Ekm.createHash passphrase)) = Some block ->
  (12 <= length rnd)%nat ->
  Ekm.encrypt rnd data passphrase =
  Gcm.Seal (Gcm.MkGcm block) (firstn 12 rnd) (firstn 12 rnd) data [].
Proof.
  intros Hb Hr. unfold Ekm.encrypt. rewrite Hb. cbn [Gcm.NewGCM mbind result_bind].
  unfold io_ReadFull, Gcm.NonceSize, Gcm.gcmStandardNonceSize.
  destruct (Nat.leb_spec 12 (length rnd)); [reflexivity|lia].
Qed.

Lemma decrypt_unfold (data : bytes) (passphrase : string) (block : Aes.Block) :
  Aes.NewCipher (bytes_of_string (Ekm.createHash passphrase)) = Some block ->
  Ekm.decrypt data passphrase =
  if (length data <? 12)%nat then Err (errors_New "malformed ciphertext")
  else Gcm.Open (Gcm.MkGcm block) [] (firstn 12 data) (skipn 12 data) [].
Proof.
  intros Hb. unfold Ekm.decrypt. rewrite Hb. cbn [Gcm.NewGCM mbind result_bind].
  unfold Gcm.NonceSize, Gcm.gcmStandardNonceSize.
  destruct (length data <? 12)%nat; [reflexivity|].
  destruct (Gcm.Open _ _ _ _ _); reflexivity.
Qed.

Lemma encrypt_decrypt_same_key (rnd data : bytes) (passphrase : string) :
  (12 <= length rnd)%nat ->
  N.of_nat (length data) <= Gcm.maxPlaintext ->
  exists sealed,
    Ekm.encrypt rnd data passphrase = Ok (firstn 12 rnd ++ sealed) /\
    length sealed = (length data + 16)%nat /\
    forall passphrase',
      Ekm.createHash passphrase' = Ekm.createHash passphrase ->
      Ekm.decrypt (firstn 12 rnd ++ sealed) passphrase' = Ok data.
Proof.
  intros Hr Hmax.
  destruct (NewCipher_createHash passphrase) as [block Hb].
  assert (Hn : length (firstn 12 rnd) = 12%nat) by (rewrite length_firstn; lia).
  destruct (Open_Seal (Gcm.MkGcm block) (firstn 12 rnd) data Hn Hmax)
    as (sealed & Hseal & Hlen & Hopen).
  exists sealed. split; [|split]; auto.
  - rewrite (encrypt_unfold _ _ _ block) by assumption. exact Hseal.
  - intros passphrase' Hk.
    rewrite (decrypt_unfold _ _ block) by (rewrite Hk; exact Hb).
    rewrite length_app, Hn.
    destruct (Nat.ltb_spec (12 + length sealed) 12); [lia|].
    rewrite firstn_app, skipn_app, Hn, Nat.sub_diag, firstn_all2, skipn_all2 by lia.
    rewrite firstn_O, skipn_O, app_nil_r. cbn [app]. exact Hopen.
Qed.

(** Every sealed blob is 28 bytes longer than its data. *)
Lemma gcm_sealed_length (key : string) (data blob : bytes) :
  Ekm.gcm_sealed key data blob -> length blob = (length data + 28)%nat.
Proof.
  intros (g & nonce & sealed & _ & Hn & Hseal & ->).
  unfold Gcm.Seal in Hseal.
  destruct (negb _); [discriminate|].
  destruct (_ <? _); [discriminate|].
  injection Hseal as <-.
  rewrite !length_app, length_counterCrypt, length_auth
    by apply length_Aes_Encrypt.
  rewrite Hn. unfold Gcm.NonceSize, Gcm.gcmStandardNonceSize. simpl. lia.
Qed.

(** C10. On every input shorter than the nonce size, [decrypt] returns the
    malformed-ciphertext error; and on every input whatsoever it returns a
    value or an error, never a panic: the slicing at the nonce size is only
    reached on inputs that are long enough. *)
Theorem decrypt_short_input_is_malformed :
  (forall (data : bytes) (passphrase : string),
      (length data < Gcm.gcmStandardNonceSize)%nat ->
      Ekm.decrypt data passphrase = Err (errors_New "malformed ciphertext")) /\
  (forall (data : bytes) (passphrase : string),
      is_Panic (Ekm.decrypt data passphrase) = false).
Proof.
  split; intros data passphrase.
  - intros Hlen. unfold Gcm.gcmStandardNonceSize in Hlen.
    destruct (NewCipher_createHash passphrase) as [block Hb].
    rewrite (decrypt_unfold _ _ block Hb).
    destruct (Nat.ltb_spec (length data) 12); [reflexivity|lia].
  - destruct (NewCipher_createHash passphrase) as [block Hb].
    rewrite (decrypt_unfold _ _ block Hb).
    destruct (Nat.ltb_spec (length data) 12); [reflexivity|].
    unfold Gcm.Open, Gcm.NonceSize, Gcm.gcmStandardNonceSize.
    rewrite length_firstn, Nat.min_l by lia. cbn [Nat.eqb negb].
    destruct (_ <? _)%nat; [reflexivity|].
    destruct (_ <? _); [reflexivity|].
    destruct (bool_decide _); reflexivity.
Qed.

Lemma decrypt_short_input_is_malformed_witness :
  Ekm.decrypt [x01; x02; x03] "secret" = Err (errors_New "malformed ciphertext").
Proof.
  apply (proj1 decrypt_short_input_is_malformed [x01; x02; x03] "secret"%string).
  unfold Gcm.gcmStandardNonceSize. simpl. lia.
Defined.

(** C4, as the code has it. With a nonce from the random source and a
    payload within the size that GCM takes, decrypting what [encrypt]
    returned under the same passphrase gives the payload back. [decrypt]
    knows the passphrase only through its MD5 digest, so every passphrase
    with the same digest gives the payload back as well. And whenever
    decrypting a stored account fails, under whatever passphrase,
    [OpenAccount] returns an error whose cause is [ErrCantDecrypt]. *)
Theorem encrypt_decrypt_roundtrip
        (rnd data : bytes) (passphrase : string) :
  (Gcm.gcmStandardNonceSize <= length rnd)%nat ->
  N.of_nat (length data) <= Gcm.maxPlaintext ->
  exists ct,
    Ekm.encrypt rnd data passphrase = Ok ct /\
    Ekm.decrypt ct passphrase = Ok data /\
    (forall passphrase',
        Ekm.createHash passphrase' = Ekm.createHash passphrase ->
        Ekm.decrypt ct passphrase' = Ok data) /\
    (forall unmarshal (s : Ekm.storage) (accountID : string) (blob : bytes),
        Ekm.db s !! (Ekm.objPrefix s Ekm.accountsPrefix ++
                     bytes_of_string (Ekm.accountsPath accountID)) = Some blob ->
        is_Err (Ekm.decryptData s blob) = true ->
        exists e,
          Ekm.OpenAccount unmarshal s accountID = Err e /\
          Cause e = Ekm.ErrCantDecrypt).
Proof.
  intros Hr Hmax. unfold Gcm.gcmStandardNonceSize in Hr.
  destruct (encrypt_decrypt_same_key rnd data passphrase Hr Hmax)
    as (sealed & Henc & _ & Hdec).
  exists (firstn 12 rnd ++ sealed). repeat split; auto.
  intros unmarshal s accountID blob Hget Hfail.
  unfold Ekm.OpenAccount, Basedb.Get. rewrite Hget. cbn [Basedb.Value].
  destruct (Ekm.decryptData s blob) as [v|e|m]; try discriminate.
  eexists. split; reflexivity.
Qed.

Lemma encrypt_decrypt_roundtrip_witness :
  exists ct,
    Ekm.encrypt (unhex "0102030405060708090a0b0c0d0e")
                (bytes_of_string "account") "secret" = Ok ct /\
    Ekm.decrypt ct "secret" = Ok (bytes_of_string "account").
Proof.
  destruct (encrypt_decrypt_roundtrip (unhex "0102030405060708090a0b0c0d0e")
              (bytes_of_string "account") "secret"%string)
    as (ct & Henc & Hdec & _).
  - vm_compute. lia.
  - vm_compute. discriminate.
  - exists ct. split; assumption.
Defined.

(** A wrong passphrase that is caught: the tag does not verify. *)
Example decrypt_wrong_passphrase :
  (ct ← Ekm.encrypt (unhex "0102030405060708090a0b0c0d0e")
          (bytes_of_string "account") "secret";
   Ekm.decrypt ct "secreT") = Err Gcm.errOpen.
Proof. vm_compute. reflexivity. Qed.

(** The two colliding passphrases differ and derive the same key. *)
Lemma colliding_passphrases :
  collidingPassphrase1 <> collidingPassphrase2 /\
  Ekm.createHash collidingPassphrase1 = Ekm.createHash collidingPassphrase2 /\
  Ekm.createHash collidingPassphrase1 = "79054025255fb1a26e4bc422aef54eb4"%string.
Proof.
  split; [|split].
  - apply String.eqb_neq. vm_compute. reflexivity.
  - vm_compute. reflexivity.
  - vm_compute. reflexivity.
Qed.

(** C4, as stated, fails: the two passphrases are distinct, and what is
    encrypted under the first decrypts under the second, without any
    error, to the payload. *)
Lemma distinct_passphrases_decrypt_without_error :
  collidingPassphrase1 <> collidingPassphrase2 /\
  exists ct,
    Ekm.encrypt (unhex "0102030405060708090a0b0c0d0e")
                (bytes_of_string "account") collidingPassphrase1 = Ok ct /\
    Ekm.decrypt ct collidingPassphrase2 = Ok (bytes_of_string "account") /\
    is_Err (Ekm.decrypt ct collidingPassphrase2) = false.
Proof.
  split; [apply colliding_passphrases|].
  eexists. split; [vm_compute; reflexivity|].
  split; vm_compute; reflexivity.
Qed.

(** ** Package ekm: what reaches the database *)

(** C3, as the code has it. [SaveAccount] writes the marshalled account
    through [encryptData]: with a key set the stored blob is sealed, the
    nonce from the random source in front, and decrypts to the account
    under that key; with no key the blob is the marshalled account.
    [SaveWallet] writes the marshalled wallet as it is, key or no key. *)
Theorem SaveAccount_seals_SaveWallet_stores_clear
        (s : Ekm.storage) (rnd : bytes)
        (account : Ekm.ValidatorAccount) (data : bytes) :
  Ekm.account_MarshalJSON account = Ok data ->
  (Gcm.gcmStandardNonceSize <= length rnd)%nat ->
  N.of_nat (length data) <= Gcm.maxPlaintext ->
  (exists blob,
      Ekm.SaveAccount s rnd account =
      (Ekm.with_db s
         (<[Ekm.objPrefix s Ekm.accountsPrefix ++
            bytes_of_string (Ekm.accountsPath (Ekm.account_ID account)) := blob]>
            (Ekm.db s)), Ok tt) /\
      (Ekm.encryptionKey s <> EmptyString ->
       Ekm.gcm_sealed (Ekm.encryptionKey s) data blob /\
       firstn Gcm.gcmStandardNonceSize blob = firstn Gcm.gcmStandardNonceSize rnd /\
       Ekm.decrypt blob (Ekm.encryptionKey s) = Ok data) /\
      (Ekm.encryptionKey s = EmptyString -> blob = data)) /\
  (forall (wallet : Ekm.Wallet) (wdata : bytes),
      Ekm.wallet_MarshalJSON wallet = Ok wdata ->
      Ekm.SaveWallet s wallet =
      (Ekm.with_db s
         (<[Ekm.objPrefix s Ekm.walletPrefix ++ bytes_of_string Ekm.walletPath := wdata]>
            (Ekm.db s)), Ok tt)).
Proof.
  intros Hm Hr Hmax. unfold Gcm.gcmStandardNonceSize in *. split.
  - unfold Ekm.SaveAccount, Ekm.encryptData. rewrite Hm.
    destruct (bool_decide_reflect (Ekm.encryptionKey s <> EmptyString)) as [Hk|Hk].
    + destruct (encrypt_decrypt_same_key rnd data (Ekm.encryptionKey s) Hr Hmax)
        as (sealed & Henc & Hlen & Hdec).
      rewrite Henc. cbn [Ekm.wrap_result].
      exists (firstn 12 rnd ++ sealed). split; [reflexivity|]. split; [|congruence].
      intros _. split; [|split].
      * destruct (NewCipher_createHash (Ekm.encryptionKey s)) as [block Hb].
        exists (Gcm.MkGcm block), (firstn 12 rnd), sealed.
        rewrite Hb. repeat split.
        -- rewrite length_firstn. unfold Gcm.NonceSize, Gcm.gcmStandardNonceSize. lia.
        -- apply (Seal_dst _ (firstn 12 rnd)).
           rewrite <- Henc. symmetry. apply encrypt_unfold; assumption.
      * rewrite firstn_app, length_firstn, firstn_firstn.
        replace (12 - Nat.min 12 (length rnd))%nat with 0%nat by lia.
        rewrite firstn_O, app_nil_r. f_equal.
      * apply Hdec. reflexivity.
    + exists data. split; [reflexivity|]. split; [intros H; contradiction|auto].
  - intros wallet wdata Hw. unfold Ekm.SaveWallet. rewrite Hw. reflexivity.
Qed.

Lemma SaveAccount_seals_SaveWallet_stores_clear_witness :
  exists blob,
    Ekm.SaveAccount lockedStorage (unhex "0102030405060708090a0b0c0d0e")
      (Ekm.MkAccount "7d0a" (Ok (bytes_of_string "account"))) =
    (Ekm.with_db lockedStorage
       (<[Ekm.objPrefix lockedStorage Ekm.accountsPrefix ++
          bytes_of_string (Ekm.accountsPath "7d0a") := blob]> ∅), Ok tt) /\
    Ekm.gcm_sealed "secret" (bytes_of_string "account") blob.
Proof.
  destruct (SaveAccount_seals_SaveWallet_stores_clear lockedStorage
              (unhex "0102030405060708090a0b0c0d0e")
              (Ekm.MkAccount "7d0a" (Ok (bytes_of_string "account")))
              (bytes_of_string "account"))
    as [(blob & Hsave & Hkey & _) _].
  - reflexivity.
  - vm_compute. lia.
  - vm_compute. discriminate.
  - exists blob. split; [exact Hsave|]. apply Hkey. discriminate.
Defined.

(** C3, as stated, fails for [SaveWallet]: with the encryption key set,
    the blob in the database is the marshalled wallet itself, which is not
    a sealed blob. *)
Lemma SaveWallet_stores_clear_with_key_set :
  Ekm.encryptionKey lockedStorage <> EmptyString /\
  Ekm.wallet_MarshalJSON plainWallet =
    Ok (bytes_of_string "{id:7d0a,type:HD,indexMapper:{}}") /\
  Ekm.db (fst (Ekm.SaveWallet lockedStorage plainWallet))
    !! (Ekm.objPrefix lockedStorage Ekm.walletPrefix ++ bytes_of_string Ekm.walletPath)
  = Some (bytes_of_string "{id:7d0a,type:HD,indexMapper:{}}") /\
  ~ Ekm.gcm_sealed (Ekm.encryptionKey lockedStorage)
      (bytes_of_string "{id:7d0a,type:HD,indexMapper:{}}")
      (bytes_of_string "{id:7d0a,type:HD,indexMapper:{}}").
Proof.
  split; [discriminate|]. split; [reflexivity|]. split.
  - unfold Ekm.SaveWallet, plainWallet, Ekm.db_Set, Basedb.Set_.
    cbn [Ekm.wallet_MarshalJSON fst Ekm.db Ekm.with_db].
    apply lookup_insert_eq.
  - intros H. apply gcm_sealed_length in H. lia.
Qed.

(** C5. Saving slot 0 fails with the invalid-slot error and leaves the
    storage as it was; saving slot 100 succeeds, and the retrieval that
    follows returns 100, found, and no error. *)
Theorem highest_proposal_save_and_retrieve (s : Ekm.storage) (pubKey : bytes) :
  Ekm.SaveHighestProposal s (Some pubKey) 0 =
    (s, Err (errors_New "invalid proposal slot, slot could not be 0")) /\
  exists s',
    Ekm.SaveHighestProposal s (Some pubKey) 100 = (s', Ok tt) /\
    Ekm.RetrieveHighestProposal s' (Some pubKey) = Ok (100, true, None).
Proof.
  split; [reflexivity|].
  eexists. split; [reflexivity|].
  unfold Ekm.RetrieveHighestProposal, Basedb.Get, Ekm.objPrefix.
  cbn [Ekm.db Ekm.with_db Ekm.network fst].
  rewrite lookup_insert_eq. reflexivity.
Qed.

(** ** The storage engine *)

Lemma Permutation_List_filter {A} (f : A -> bool) (l l' : list A) :
  l ≡ₚ l' -> List.filter f l ≡ₚ List.filter f l'.
Proof.
  induction 1 as [|x l l' _ IH|x y l|l l' l'' _ IH1 _ IH2]; simpl.
  - constructor.
  - destruct (f x); [constructor|]; exact IH.
  - destruct (f x), (f y); try reflexivity. apply perm_swap.
  - etransitivity; eassumption.
Qed.

Lemma HasPrefix_app (p rest : bytes) : Basedb.HasPrefix (p ++ rest) p = true.
Proof.
  unfold Basedb.HasPrefix. apply bool_decide_eq_true_2. apply take_app_length.
Qed.

Lemma collection_insert (d : gmap bytes bytes) (p k v : bytes) :
  d !! k = None -> Basedb.HasPrefix k p = true ->
  Basedb.collection (<[k := v]> d) p ≡ₚ Basedb.MkObj k v :: Basedb.collection d p.
Proof.
  intros Hnone Hp. unfold Basedb.collection.
  rewrite (Permutation_List_filter _ _ _ (map_to_list_insert d k v Hnone)).
  simpl. rewrite Hp. reflexivity.
Qed.

Lemma collection_lookup (d : gmap bytes bytes) (p k v : bytes) :
  d !! k = Some v -> Basedb.HasPrefix k p = true ->
  In (Basedb.MkObj k v) (Basedb.collection d p).
Proof.
  intros Hk Hp. unfold Basedb.collection.
  apply (in_map (fun kv => Basedb.MkObj (fst kv) (snd kv)) _ (k, v)).
  apply filter_In. split; [|exact Hp].
  apply list_elem_of_In, elem_of_map_to_list. exact Hk.
Qed.

(** ** Package storage: the validator catalogue *)

Section CatalogueFacts.

Variable storagePrefix : bytes.
Variable json_Marshal : Exporter.ValidatorInformation -> result bytes.
Variable json_Unmarshal : bytes -> Exporter.ValidatorInformation * option error.

Local Abbreviation Save :=
  (Exporter.SaveValidatorInformation storagePrefix json_Marshal json_Unmarshal).
Local Abbreviation saves :=
  (Exporter.saves storagePrefix json_Marshal json_Unmarshal).
Local Abbreviation key pk := (storagePrefix ++ Exporter.validatorKey pk).
Local Abbreviation entries s :=
  (Basedb.collection (Exporter.db s) (storagePrefix ++ Exporter.validatorsPrefix)).
Local Abbreviation stored := (Exporter.stored storagePrefix json_Unmarshal).
Local Abbreviation consistent := (Exporter.consistent storagePrefix json_Unmarshal).

Lemma validatorKey_in_collection (pk : string) :
  Basedb.HasPrefix (key pk) (storagePrefix ++ Exporter.validatorsPrefix) = true.
Proof.
  unfold Exporter.validatorKey. rewrite app_assoc. apply HasPrefix_app.
Qed.

(** The branch of a key that is there: nothing is written. *)
Lemma Save_found (s : Exporter.storage) (vi : Exporter.ValidatorInformation)
      (raw : bytes) (info : Exporter.ValidatorInformation) :
  Exporter.db s !! key (Exporter.PublicKey vi) = Some raw ->
  json_Unmarshal raw = (info, None) ->
  Save s vi = (s, Exporter.set_Index vi (Exporter.Index info), Ok tt).
Proof.
  intros Hget Hdec.
  unfold Exporter.SaveValidatorInformation,
    Exporter.getValidatorInformationNotSafe, Basedb.Get.
  rewrite Hget. cbn [negb Basedb.Value]. rewrite Hdec. reflexivity.
Qed.

(** The branch of a new key: the next index, and one write. *)
Lemma Save_new (s : Exporter.storage) (vi : Exporter.ValidatorInformation)
      (raw : bytes) :
  Exporter.db s !! key (Exporter.PublicKey vi) = None ->
  json_Marshal
    (Exporter.set_Index vi (Z.of_nat (length (entries s)))) = Ok raw ->
  Save s vi =
  (Exporter.MkStorage (<[key (Exporter.PublicKey vi) := raw]> (Exporter.db s)),
   Exporter.set_Index vi (Z.of_nat (length (entries s))), Ok tt).
Proof.
  intros Hget Hm.
  unfold Exporter.SaveValidatorInformation,
    Exporter.getValidatorInformationNotSafe, Basedb.Get.
  rewrite Hget. cbn [negb].
  unfold Exporter.nextIndex, Basedb.CountByCollection,
    Exporter.saveValidatorNotSafe.
  rewrite Hm. reflexivity.
Qed.



Section WithRoundtrip.

Hypothesis codec : Exporter.index_roundtrip json_Marshal json_Unmarshal.

(** A save keeps the catalogue consistent and succeeds on it; after it
    the key is there, with the index that the caller got back. *)
Lemma Save_consistent (s : Exporter.storage) (vi : Exporter.ValidatorInformation) :
  consistent s ->
  consistent (Save s vi).1.1 /\
  (Save s vi).2 = Ok tt /\
  (exists raw,
      Exporter.db (Save s vi).1.1 !! key (Exporter.PublicKey vi) = Some raw /\
      snd (json_Unmarshal raw) = None /\
      Exporter.Index (fst (json_Unmarshal raw)) =
      Exporter.Index (Save s vi).1.2) /\
  (Exporter.db s !! key (Exporter.PublicKey vi) = None ->
   (Save s vi).1.2 =
   Exporter.set_Index vi (Z.of_nat (length (entries s)))).
Proof.
  intros Hc.
  destruct (Exporter.db s !! key (Exporter.PublicKey vi)) as [raw|] eqn:Hget.
  - pose proof (collection_lookup _ _ _ _ Hget
                  (validatorKey_in_collection _)) as Hin.
    unfold Exporter.consistent in Hc. cbn zeta in Hc.
    rewrite List.Forall_forall in Hc. destruct (Hc _ Hin) as [Herr _].
    cbn [Basedb.Value] in Herr.
    destruct (json_Unmarshal raw) as [info e] eqn:Hdec. cbn in Herr. subst e.
    rewrite (Save_found s vi raw info Hget Hdec). cbn [fst snd].
    split; [|split; [|split]].
    + rewrite <- List.Forall_forall in Hc. exact Hc.
    + reflexivity.
    + exists raw. rewrite Hdec. auto.
    + discriminate.
  - destruct (codec (Exporter.set_Index vi (Z.of_nat (length (entries s)))))
      as (raw & Hm & Herr & Hidx).
    rewrite (Save_new s vi raw Hget Hm). cbn [fst snd Exporter.db].
    split; [|split; [|split]].
    + unfold Exporter.consistent in *. cbn zeta in *. cbn [Exporter.db].
      pose proof (collection_insert (Exporter.db s)
                    (storagePrefix ++ Exporter.validatorsPrefix)
                    (key (Exporter.PublicKey vi)) raw Hget
                    (validatorKey_in_collection _)) as Hperm.
      rewrite (Permutation_length Hperm).
      eapply Permutation_Forall; [symmetry; exact Hperm|].
      constructor.
      * cbn [Basedb.Value length]. rewrite Herr, Hidx. cbn [Exporter.set_Index Exporter.Index].
        split; [reflexivity|lia].
      * eapply List.Forall_impl; [|exact Hc]. cbn [length].
        intros obj [H1 H2]. split; [exact H1|lia].
    + reflexivity.
    + exists raw. rewrite lookup_insert_eq. auto.
    + reflexivity.
Qed.

Lemma saves_consistent (s0 s : Exporter.storage) :
  entries s0 = [] -> saves s0 s -> consistent s.
Proof.
  intros Hempty. induction 1 as [|s vi _ IH].
  - unfold Exporter.consistent. cbn zeta. rewrite Hempty. constructor.
  - apply Save_consistent, IH.
Qed.


End WithRoundtrip.


(** The loop of [ListValidators] on readable entries. *)
Lemma iterate_listHandler (from to : Z) (objs : list Basedb.Obj) :
  Forall (fun obj => snd (json_Unmarshal (Basedb.Value obj)) = None) objs ->
  forall (i : nat) (acc : list Exporter.ValidatorInformation),
    Basedb.iterate (Exporter.listHandler json_Unmarshal from to) i objs acc =
    (acc ++ List.filter
              (fun vi => ((from <=? Exporter.Index vi) &&
                          (Exporter.Index vi <=? to))%Z)
              (List.map (fun obj => fst (json_Unmarshal (Basedb.Value obj))) objs),
     None).
Proof.
  induction 1 as [|obj objs Hobj _ IH]; intros i acc; cbn [Basedb.iterate List.map List.filter].
  - rewrite app_nil_r. reflexivity.
  - unfold Exporter.listHandler at 1.
    destruct (json_Unmarshal (Basedb.Value obj)) as [vi e]. cbn in Hobj. subst e.
    cbn [fst].
    destruct ((from <=? Exporter.Index vi) && (Exporter.Index vi <=? to))%Z.
    + rewrite IH, <- app_assoc. reflexivity.
    + apply IH.
Qed.

(** C7. On a catalogue whose entries are readable, [ListValidators] with
    [to] zero returns exactly the records with an index of at least
    [from], and with [to] above zero exactly those with an index from
    [from] to [to], in the order of the iteration. *)
Theorem ListValidators_range (s : Exporter.storage) (from to : Z) :
  Exporter.readable storagePrefix json_Unmarshal s ->
  (to = 0%Z ->
   Exporter.ListValidators storagePrefix json_Unmarshal s from to =
   (List.filter (fun vi => (from <=? Exporter.Index vi)%Z) (stored s), None)) /\
  ((0 < to)%Z ->
   Exporter.ListValidators storagePrefix json_Unmarshal s from to =
   (List.filter (fun vi => ((from <=? Exporter.Index vi) &&
                            (Exporter.Index vi <=? to))%Z) (stored s), None)).
Proof.
  intros Hr. unfold Exporter.readable in Hr.
  assert (Herr : Forall (fun obj => snd (json_Unmarshal (Basedb.Value obj)) = None)
                        (entries s))
    by (eapply List.Forall_impl; [|exact Hr]; intros obj [H _]; exact H).
  unfold Exporter.ListValidators, Basedb.GetAll, Exporter.stored. cbn zeta.
  split; intros Hto; rewrite (iterate_listHandler _ _ _ Herr); cbn [app].
  - subst to. unfold Exporter.normalTo. cbn [Z.eqb]. f_equal.
    apply filter_ext_in. intros vi Hin.
    apply in_map_iff in Hin. destruct Hin as (obj & <- & Hin).
    rewrite List.Forall_forall in Hr. destruct (Hr obj Hin) as [_ [_ Hmax]].
    apply Z.leb_le in Hmax. rewrite Hmax. apply andb_true_r.
  - unfold Exporter.normalTo.
    destruct (Z.eqb_spec to 0); [lia|]. reflexivity.
Qed.

End CatalogueFacts.

(** ** The catalogue on an example *)

Lemma count_ones_repeat (n : nat) (rest : bytes) :
  Exporter.count_ones (repeat x01 n ++ x2f :: rest) = n.
Proof. induction n; simpl; auto. Qed.

Lemma unary_index_roundtrip :
  Exporter.index_roundtrip Exporter.unaryMarshal Exporter.unaryUnmarshal.
Proof.
  intros [i pk ops]. eexists. split; [reflexivity|].
  cbn [Exporter.Index Exporter.PublicKey].
  change (bytes_of_string "/") with [x2f].
  destruct (Z.ltb_spec i 0) as [Hneg|Hpos].
  - cbn [app]. unfold Exporter.unaryUnmarshal. cbn [fst snd Exporter.Index].
    split; [reflexivity|]. rewrite count_ones_repeat. lia.
  - cbn [app].
    assert (Hn : Z.of_nat (Z.abs_nat i) = i) by lia.
    destruct (Z.abs_nat i) as [|n]; cbn [repeat app];
      unfold Exporter.unaryUnmarshal;
      cbn [fst snd Exporter.Index Exporter.count_ones];
      rewrite ?count_ones_repeat; split; try reflexivity; lia.
Qed.

Example catalogue2_indices :
  List.map Exporter.Index
    (Exporter.stored exporterPrefix Exporter.unaryUnmarshal catalogue2) = [0; 1]%Z
  \/ List.map Exporter.Index
    (Exporter.stored exporterPrefix Exporter.unaryUnmarshal catalogue2) = [1; 0]%Z.
Proof. vm_compute. auto. Qed.

Example save_again_keeps_index :
  unarySave catalogue2 validatorA' =
  (catalogue2, Exporter.set_Index validatorA' 0, Ok tt).
Proof. vm_compute. reflexivity. Qed.



Lemma consistent_readable (storagePrefix : bytes)
      (json_Unmarshal : bytes -> Exporter.ValidatorInformation * option error)
      (s : Exporter.storage) :
  Exporter.consistent storagePrefix json_Unmarshal s ->
  (Z.of_nat (length (Basedb.collection (Exporter.db s)
                       (storagePrefix ++ Exporter.validatorsPrefix)))
   <= Exporter.MaxInt64 + 1)%Z ->
  Exporter.readable storagePrefix json_Unmarshal s.
Proof.
  unfold Exporter.consistent, Exporter.readable, Exporter.int64_ok,
    Exporter.MaxInt64. cbn zeta.
  intros Hc Hlen. eapply List.Forall_impl; [|exact Hc].
  intros obj [H1 H2]. split; [exact H1|lia].
Qed.

Lemma catalogue2_readable :
  Exporter.readable exporterPrefix Exporter.unaryUnmarshal catalogue2.
Proof.
  apply consistent_readable.
  - apply (saves_consistent exporterPrefix Exporter.unaryMarshal
             Exporter.unaryUnmarshal unary_index_roundtrip catalogue0).
    + reflexivity.
    + apply (Exporter.saves_step _ _ _ _ catalogue1 validatorB).
      apply (Exporter.saves_step _ _ _ _ catalogue0 validatorA).
      constructor.
  - assert (Hlen : length (Basedb.collection (Exporter.db catalogue2)
                             (exporterPrefix ++ Exporter.validatorsPrefix)) = 2%nat)
      by (vm_compute; reflexivity).
    rewrite Hlen. unfold Exporter.MaxInt64. lia.
Qed.

Lemma ListValidators_range_witness :
  Exporter.ListValidators exporterPrefix Exporter.unaryUnmarshal catalogue2 1 0 =
  (List.filter (fun vi => (1 <=? Exporter.Index vi)%Z)
     (Exporter.stored exporterPrefix Exporter.unaryUnmarshal catalogue2), None).
Proof.
  apply (ListValidators_range exporterPrefix Exporter.unaryUnmarshal catalogue2 1 0).
  - exact catalogue2_readable.
  - reflexivity.
Defined.

Example list_from_one :
  List.map Exporter.PublicKey
    (Exporter.ListValidators exporterPrefix Exporter.unaryUnmarshal catalogue2 1 0).1
  = ["c3d4"%string].
Proof. vm_compute. reflexivity. Qed.

Example list_zero_to_zero_is_everything :
  length (Exporter.ListValidators exporterPrefix Exporter.unaryUnmarshal catalogue2 0 0).1
  = 2%nat.
Proof. vm_compute. reflexivity. Qed.

Example list_bounded :
  List.map Exporter.PublicKey
    (Exporter.ListValidators exporterPrefix Exporter.unaryUnmarshal catalogue2 (-1) 0).1
  = List.map Exporter.PublicKey
    (Exporter.stored exporterPrefix Exporter.unaryUnmarshal catalogue2).
Proof. vm_compute. reflexivity. Qed.

(** ** The controllers map *)

(** C8, as the code has it. The map that [setupIbfts] builds holds one
    controller, that of the attester role: [ControllerForIdentifier]
    returns it for an identifier of that role and nil for an identifier of
    any other role. *)
Theorem setupIbfts_attester_only (opt : Validator.Options) (identifier : Identifier) :
  Controller.ControllerForIdentifier (Validator.setupIbfts opt) identifier =
  match GetRoleType identifier with
  | RoleTypeAttester => Some (Validator.setupIbftController RoleTypeAttester opt)
  | _ => None
  end.
Proof.
  unfold Controller.ControllerForIdentifier, Validator.setupIbfts.
  destruct (GetRoleType identifier);
    first [apply lookup_insert_eq | (rewrite lookup_insert_ne by discriminate; apply lookup_empty)].
Qed.

(** C8, as stated, fails for the proposer role: the map of a new validator
    has no controller for it. *)
Lemma no_controller_for_proposer :
  GetRoleType proposerId = RoleTypeProposer /\
  Controller.ControllerForIdentifier
    (Validator.setupIbfts (Validator.MkOptions exampleShare 5 false)) proposerId = None.
Proof. split; reflexivity. Qed.

(** ** The instance decides once *)

Section InstanceFacts.

Variable verify : Qbft.SignedMessage -> bool.

(** A message that brings the decision finds the instance undecided and
    leaves it decided; any other message leaves the decision as it
    is. *)
Lemma ProcessMessage_decision (i i' : Qbft.Instance) (msg : Qbft.SignedMessage)
      (report : option Qbft.Decision) :
  Qbft.ProcessMessage verify i msg = Ok (i', report) ->
  match report with
  | Some d => Qbft.decided i = None /\ Qbft.decided i' = Some d
  | None => Qbft.decided i' = Qbft.decided i
  end.
Proof.
  unfold Qbft.ProcessMessage.
  destruct (negb (verify msg)); [discriminate|].
  destruct (negb (Qbft.known_signers i msg)); [discriminate|].
  destruct (negb _); [discriminate|].
  destruct (Qbft.decided i) as [d|] eqn:Hd.
  - intros H. injection H as <- <-. exact Hd.
  - destruct (_ <? _); [discriminate|].
    destruct (Qbft.Kind msg).
    + intros H. injection H as <- <-. reflexivity.
    + intros H. injection H as <- <-. reflexivity.
    + destruct (_ <=? _)%nat; intros H; injection H as <- <-; cbn; auto.
    + intros H. injection H as <- <-. reflexivity.
Qed.

Lemma ProcessConsensusMessage_stored_once (c : Qbft.Controller)
      (msg : Qbft.SignedMessage) :
  Qbft.stored_once c ->
  Qbft.stored_once (Qbft.ProcessConsensusMessage verify c msg).1.
Proof.
  intros [Hlen Hnone]. unfold Qbft.ProcessConsensusMessage.
  destruct (Qbft.ProcessMessage verify (Qbft.instance c) msg)
    as [[i' [d|]]|e|m] eqn:Hpm; cbn [fst]; try (split; assumption).
  - apply ProcessMessage_decision in Hpm. destruct Hpm as [Hbefore Hafter].
    split; cbn [Qbft.decidedStore Qbft.instance].
    + rewrite (Hnone Hbefore). cbn. lia.
    + rewrite Hafter. discriminate.
  - apply ProcessMessage_decision in Hpm.
    split; cbn [Qbft.decidedStore Qbft.instance]; [exact Hlen|].
    rewrite Hpm. exact Hnone.
Qed.

End InstanceFacts.

(** ** The validator runtime *)

Section RuntimeFacts.

Variable SignatureState : Type.
Variable newSignatureState : N -> SignatureState.
Variable SignedPostConsensusMessage : Type.
Variable verify : Qbft.SignedMessage -> bool.
Variable validateMessage : Validator.Share -> SSVMessage -> option error.
Variable decodeSignedMessage : bytes -> result Qbft.SignedMessage.
Variable decodePostConsensus : bytes -> result SignedPostConsensusMessage.
Variable processPostConsensusSig :
  SignatureState -> option Qbft.Controller -> SignedPostConsensusMessage ->
  SignatureState * result unit.

Local Abbreviation messageHandler :=
  (Validator.messageHandler SignatureState SignedPostConsensusMessage verify
     validateMessage decodeSignedMessage decodePostConsensus
     processPostConsensusSig).
Local Abbreviation ProcessMsg :=
  (Validator.ProcessMsg SignatureState SignedPostConsensusMessage verify
     validateMessage decodeSignedMessage decodePostConsensus
     processPostConsensusSig).
Local Abbreviation workerStep :=
  (Validator.workerStep SignatureState SignedPostConsensusMessage verify
     validateMessage decodeSignedMessage decodePostConsensus
     processPostConsensusSig).
Local Abbreviation step :=
  (Validator.step SignatureState SignedPostConsensusMessage verify
     validateMessage decodeSignedMessage decodePostConsensus
     processPostConsensusSig).
Local Abbreviation run :=
  (Validator.run SignatureState SignedPostConsensusMessage verify
     validateMessage decodeSignedMessage decodePostConsensus
     processPostConsensusSig).
Local Abbreviation once v :=
  (map_Forall (fun (_ : RoleType) c => Qbft.stored_once c)
              (Validator.ibfts SignatureState v)).

Lemma processConsensusMsg_once (v : Validator.Validator SignatureState)
      (c : option Qbft.Controller) (msg : Qbft.SignedMessage) :
  once v ->
  (forall c', c = Some c' -> Qbft.stored_once c') ->
  once (Validator.processConsensusMsg SignatureState verify v c msg).1.
Proof.
  intros Hv Hc. unfold Validator.processConsensusMsg.
  destruct c as [c'|]; [|exact Hv].
  pose proof (ProcessConsensusMessage_stored_once verify c' msg (Hc c' eq_refl)) as H.
  destruct (Qbft.ProcessConsensusMessage verify c' msg) as [c'' r].
  cbn [fst Validator.ibfts] in *.
  apply map_Forall_insert_2; assumption.
Qed.

Lemma messageHandler_once (v : Validator.Validator SignatureState) (msg : SSVMessage) :
  once v -> once (messageHandler v msg).1.
Proof.
  intros Hv. unfold Validator.messageHandler.
  destruct (validateMessage _ msg); [exact Hv|].
  destruct (GetType msg); try exact Hv.
  - destruct (decodeSignedMessage _); try exact Hv.
    apply processConsensusMsg_once; [exact Hv|].
    intros c' Hc'. exact (Hv _ _ Hc').
  - destruct (decodePostConsensus _); try exact Hv.
    destruct (processPostConsensusSig _ _ _). exact Hv.
Qed.

Lemma step_once (v : Validator.Validator SignatureState) (e : Validator.event) :
  once v -> once (step v e).1.
Proof.
  intros Hv. destruct e as [msg|]; cbn [Validator.step].
  - unfold Validator.ProcessMsg. destruct (Validator.readMode _ v).
    + pose proof (messageHandler_once v msg Hv) as H.
      destruct (messageHandler v msg). exact H.
    + destruct (Validator.TryEnqueue _ _). exact Hv.
  - unfold Validator.workerStep.
    destruct (Validator.queue _) as [|msg rest]; [exact Hv|].
    match goal with
    | |- context [messageHandler ?v1 msg] =>
        pose proof (messageHandler_once v1 msg Hv) as H;
        destruct (messageHandler v1 msg)
    end.
    exact H.
Qed.

Lemma run_once (es : list Validator.event) :
  forall v : Validator.Validator SignatureState, once v -> once (run v es).
Proof.
  induction es as [|e es IH]; intros v Hv; cbn [Validator.run]; [exact Hv|].
  pose proof (step_once v e Hv) as H.
  destruct (step v e) as [v' [| |]]; cbn [fst] in H; auto.
Qed.

(** C1. Whatever messages arrive at a new validator and whenever its
    worker takes them off the queue, the controller of every role has
    stored, and so handed on, at most one decision of its instance: the
    message that brings the quorum of commits is the only one that
    decides, and the messages after it are accepted without effect. *)
Theorem ProcessMsg_decides_at_most_once
        (opt : Validator.Options) (es : list Validator.event) :
  map_Forall
    (fun (_ : RoleType) c => (length (Qbft.decidedStore c) <= 1)%nat)
    (Validator.ibfts SignatureState
       (run (Validator.NewValidator SignatureState newSignatureState opt) es)).
Proof.
  assert (H : once (run (Validator.NewValidator SignatureState newSignatureState opt) es)).
  { apply run_once. cbn [Validator.NewValidator Validator.ibfts].
    unfold Validator.setupIbfts. apply map_Forall_insert_2.
    - split; cbn; [lia|reflexivity].
    - apply map_Forall_empty. }
  intros role c Hc. exact (proj1 (H role c Hc)).
Qed.

(** C2 fails on a sync message: in read mode, a message of the sync type
    that passes the validation makes [ProcessMsg] panic. *)
Theorem ProcessMsg_sync_message_panics
        (v : Validator.Validator SignatureState) (msg : SSVMessage) :
  Validator.readMode SignatureState v = true ->
  validateMessage (Validator.share SignatureState v) msg = None ->
  GetType msg = SSVSyncMsgType ->
  ProcessMsg v msg = (v, Panic "need to implement!").
Proof.
  intros Hread Hvalid Htype.
  unfold Validator.ProcessMsg, Validator.messageHandler.
  rewrite Hread, Hvalid, Htype. reflexivity.
Qed.


End RuntimeFacts.

Lemma ProcessMsg_sync_message_panics_witness :
  exampleProcessMsg (exampleValidator true) syncMessage =
  (exampleValidator true, Panic "need to implement!").
Proof.
  apply (ProcessMsg_sync_message_panics unit bytes (fun _ => true)
           (fun _ _ => None) exampleDecode (fun b => Ok b) exampleHandlePartial
           (exampleValidator true) syncMessage); reflexivity.
Defined.

(** Three commits of four operators decide; the fourth commit and a
    repeated one add nothing. *)
Example commits_decide_once :
  (fun c => (Qbft.decidedValue <$> Qbft.decidedStore c)) <$>
  (Validator.ibfts unit
     (exampleRun (exampleValidator true)
        [Validator.Deliver (commitFrom x01); Validator.Deliver (commitFrom x02);
         Validator.Deliver (commitFrom x03); Validator.Deliver (commitFrom x04);
         Validator.Deliver (commitFrom x01)])) !! RoleTypeAttester
  = Some [[x77]].
Proof. vm_compute. reflexivity. Qed.

Example two_commits_do_not_decide :
  (fun c => length (Qbft.decidedStore c)) <$>
  (Validator.ibfts unit
     (exampleRun (exampleValidator false)
        [Validator.Deliver (commitFrom x01); Validator.Deliver (commitFrom x02);
         Validator.Drain; Validator.Drain])) !! RoleTypeAttester
  = Some 0%nat.
Proof. vm_compute. reflexivity. Qed.

(** * Further properties of the signer storage *)

(** ** What [encrypt] returns and what [decrypt] rejects *)

Lemma io_ReadFull_Ok (r : bytes) (n : nat) (out : bytes) :
  io_ReadFull r n = Ok out -> (n <= length r)%nat /\ out = firstn n r.
Proof.
  unfold io_ReadFull. destruct (Nat.leb_spec n (length r)).
  - intros [= <-]. auto.
  - destruct (_ =? _)%nat; discriminate.
Qed.

(** The shape of a successful [encrypt]: nonce, counter-mode body, tag. *)
Lemma encrypt_Ok_inv (rnd data : bytes) (passphrase : string) (ct : bytes) :
  Ekm.encrypt rnd data passphrase = Ok ct ->
  exists block body,
    Aes.NewCipher (bytes_of_string (Ekm.createHash passphrase)) = Some block /\
    (12 <= length rnd)%nat /\
    N.of_nat (length data) <= Gcm.maxPlaintext /\
    length body = length data /\
    ct = firstn 12 rnd ++ body ++
         Gcm.auth (Gcm.MkGcm block) body []
           (Aes.Encrypt block (Gcm.deriveCounter (firstn 12 rnd))).
Proof.
  intros H. destruct (NewCipher_createHash passphrase) as [block Hb].
  assert (Hr : (12 <= length rnd)%nat).
  { unfold Ekm.encrypt in H. rewrite Hb in H.
    cbn [Gcm.NewGCM mbind result_bind] in H.
    destruct (io_ReadFull rnd _) as [nonce|e|m] eqn:Hrd; try discriminate.
    apply io_ReadFull_Ok in Hrd. apply Hrd. }
  rewrite (encrypt_unfold _ _ _ block Hb Hr) in H.
  unfold Gcm.Seal in H. destruct (negb _); [discriminate|].
  destruct (N.ltb_spec Gcm.maxPlaintext (N.of_nat (length data))); [discriminate|].
  injection H as <-. cbn [Gcm.cipher].
  exists block,
    (Gcm.counterCrypt (Gcm.MkGcm block) data
       (Gcm.gcmInc32 (Gcm.deriveCounter (firstn 12 rnd)))).
  repeat split; try assumption.
  apply length_counterCrypt.
Qed.

(** [encrypt] comes back in one of three ways, and the inputs say which:
    an error when the random source has fewer than twelve bytes, a panic
    when it has them and the payload is larger than GCM takes, and
    otherwise the nonce followed by as many bytes as the payload has and a
    tag of sixteen. *)
Theorem encrypt_outcome (rnd data : bytes) (passphrase : string) :
  match Ekm.encrypt rnd data passphrase with
  | Ok ct =>
      (12 <= length rnd)%nat /\
      N.of_nat (length data) <= Gcm.maxPlaintext /\
      firstn 12 ct = firstn 12 rnd /\
      length ct = (12 + length data + 16)%nat
  | Err e =>
      (length rnd < 12)%nat /\
      e = errors_New (if (length rnd =? 0)%nat then "EOF" else "unexpected EOF")
  | Panic m =>
      (12 <= length rnd)%nat /\
      Gcm.maxPlaintext < N.of_nat (length data) /\
      m = "crypto/cipher: message too large for GCM"%string
  end.
Proof.
  destruct (NewCipher_createHash passphrase) as [block Hb].
  destruct (Nat.leb_spec 12 (length rnd)) as [Hr|Hr].
  - rewrite (encrypt_unfold _ _ _ block Hb Hr).
    assert (Hn : length (firstn 12 rnd) = 12%nat) by (rewrite length_firstn; lia).
    unfold Gcm.Seal, Gcm.NonceSize, Gcm.gcmStandardNonceSize.
    rewrite Hn. cbn [Nat.eqb negb].
    destruct (N.ltb_spec Gcm.maxPlaintext (N.of_nat (length data))).
    + repeat split; assumption.
    + repeat split; auto.
      * rewrite firstn_app, Hn, Nat.sub_diag, firstn_O, app_nil_r.
        apply firstn_all2. lia.
      * rewrite !length_app, Hn, length_counterCrypt, length_auth
          by apply length_Aes_Encrypt. lia.
  - unfold Ekm.encrypt. rewrite Hb. cbn [Gcm.NewGCM mbind result_bind].
    unfold io_ReadFull, Gcm.NonceSize, Gcm.gcmStandardNonceSize.
    destruct (Nat.leb_spec 12 (length rnd)); [lia|].
    destruct (length rnd =? 0)%nat; cbn [mbind result_bind]; split; auto.
Qed.

Lemma Open_wrong_tag (g : Gcm.gcm) (nonce body tag' : bytes) :
  length nonce = 12%nat ->
  length tag' = 16%nat ->
  tag' <> Gcm.auth g body [] (Aes.Encrypt (Gcm.cipher g) (Gcm.deriveCounter nonce)) ->
  Gcm.Open g [] nonce (body ++ tag') [] = Err Gcm.errOpen.
Proof.
  intros Hn Ht Hne. unfold Gcm.Open, Gcm.NonceSize, Gcm.gcmStandardNonceSize,
    Gcm.gcmTagSize.
  rewrite Hn. cbn [Nat.eqb negb]. rewrite length_app, Ht.
  destruct (_ <? _)%nat; [reflexivity|].
  destruct (_ <? _); [reflexivity|].
  replace (length body + 16 - 16)%nat with (length body) by lia.
  rewrite skipn_app, skipn_all, firstn_app, firstn_all, Nat.sub_diag.
  cbn [skipn firstn app]. rewrite app_nil_r.
  rewrite bool_decide_eq_false_2; [reflexivity|].
  intros E. apply Hne. symmetry. exact E.
Qed.

(** A blob whose tag, the last sixteen bytes, was changed does not
    decrypt: [decrypt] returns the authentication error. *)
Theorem decrypt_rejects_changed_tag
        (rnd data : bytes) (passphrase : string) (ct tag' : bytes) :
  Ekm.encrypt rnd data passphrase = Ok ct ->
  length tag' = 16%nat ->
  tag' <> skipn (length ct - 16) ct ->
  Ekm.decrypt (firstn (length ct - 16) ct ++ tag') passphrase = Err Gcm.errOpen.
Proof.
  intros Henc Ht Hne.
  destruct (encrypt_Ok_inv _ _ _ _ Henc) as (block & body & Hb & Hr & Hmax & Hlen & ->).
  assert (Hn : length (firstn 12 rnd) = 12%nat) by (rewrite length_firstn; lia).
  set (nonce := firstn 12 rnd) in *.
  set (tag := Gcm.auth (Gcm.MkGcm block) body [] _) in *.
  assert (Htag : length tag = 16%nat) by (apply length_auth, length_Aes_Encrypt).
  assert (Hcut : (length (nonce ++ body ++ tag) - 16 = length (nonce ++ body))%nat)
    by (rewrite !length_app; lia).
  rewrite Hcut in *.
  rewrite (app_assoc nonce body tag) in *.
  rewrite firstn_app, firstn_all, Nat.sub_diag, firstn_O, app_nil_r.
  rewrite skipn_app, skipn_all, Nat.sub_diag in Hne. cbn [skipn app] in Hne.
  rewrite (decrypt_unfold _ _ block Hb).
  rewrite !length_app, Hn.
  destruct (Nat.ltb_spec (12 + length body + length tag') 12); [lia|].
  rewrite <- app_assoc.
  rewrite firstn_app, skipn_app, Hn, Nat.sub_diag, firstn_all2, skipn_all2 by lia.
  rewrite firstn_O, skipn_O, app_nil_r. cbn [app].
  apply (Open_wrong_tag (Gcm.MkGcm block)); assumption.
Qed.

Lemma decrypt_rejects_changed_tag_witness :
  exists ct,
    Ekm.encrypt (unhex "0102030405060708090a0b0c0d0e")
                (bytes_of_string "account") "secret" = Ok ct /\
    Ekm.decrypt (firstn (length ct - 16) ct ++ repeat x00 16) "secret" =
    Err Gcm.errOpen.
Proof.
  eexists. split; [vm_compute; reflexivity|].
  apply (decrypt_rejects_changed_tag (unhex "0102030405060708090a0b0c0d0e")
           (bytes_of_string "account") "secret"%string).
  - vm_compute. reflexivity.
  - reflexivity.
  - vm_compute. discriminate.
Defined.

(** A blob that has its nonce but not a whole tag after it is not taken
    for malformed: it fails the authentication. *)
Theorem decrypt_rejects_missing_tag (data : bytes) (passphrase : string) :
  (12 <= length data < 28)%nat ->
  Ekm.decrypt data passphrase = Err Gcm.errOpen.
Proof.
  intros Hlen. destruct (NewCipher_createHash passphrase) as [block Hb].
  rewrite (decrypt_unfold _ _ block Hb).
  destruct (Nat.ltb_spec (length data) 12); [lia|].
  unfold Gcm.Open, Gcm.NonceSize, Gcm.gcmStandardNonceSize, Gcm.gcmTagSize.
  rewrite length_firstn, Nat.min_l by lia. cbn [Nat.eqb negb].
  rewrite length_skipn.
  destruct (Nat.ltb_spec (length data - 12) 16); [reflexivity|lia].
Qed.

Lemma decrypt_rejects_missing_tag_witness :
  Ekm.decrypt (repeat x41 20) "secret" = Err Gcm.errOpen.
Proof.
  apply decrypt_rejects_missing_tag. cbn [repeat length]. lia.
Defined.

Lemma encryptData_roundtrip (s : Ekm.storage) (rnd data : bytes) :
  (12 <= length rnd)%nat ->
  N.of_nat (length data) <= Gcm.maxPlaintext ->
  exists blob,
    Ekm.encryptData s rnd data = Ok blob /\
    Ekm.decryptData s blob = Ok data.
Proof.
  intros Hr Hmax. unfold Ekm.encryptData, Ekm.decryptData.
  destruct (bool_decide _).
  - destruct (encrypt_decrypt_same_key rnd data (Ekm.encryptionKey s) Hr Hmax)
      as (sealed & Henc & _ & Hdec).
    rewrite Henc. eexists. split; [reflexivity|].
    rewrite (Hdec _ eq_refl). reflexivity.
  - eexists. split; reflexivity.
Qed.

(** What [encryptData] wrote, [decryptData] reads back, with a key or
    without one. *)
Theorem encryptData_decryptData (s : Ekm.storage) (rnd data : bytes) :
  (12 <= length rnd)%nat ->
  N.of_nat (length data) <= Gcm.maxPlaintext ->
  exists blob,
    Ekm.encryptData s rnd data = Ok blob /\
    Ekm.decryptData s blob = Ok data.
Proof. apply encryptData_roundtrip. Qed.

Lemma encryptData_decryptData_witness :
  exists blob,
    Ekm.encryptData lockedStorage (unhex "0102030405060708090a0b0c0d0e")
      (bytes_of_string "account") = Ok blob /\
    Ekm.decryptData lockedStorage blob = Ok (bytes_of_string "account").
Proof.
  apply encryptData_decryptData.
  - vm_compute. lia.
  - vm_compute. discriminate.
Defined.

(** ** Accounts and the wallet in the database *)

Lemma bytes_of_string_app (a b : string) :
  bytes_of_string (a ++ b) = bytes_of_string a ++ bytes_of_string b.
Proof.
  unfold bytes_of_string, list_byte_of_string.
  induction a as [|c a IH]; [reflexivity|].
  change (String c a +:+ b) with (String c (a +:+ b)).
  cbn [list_ascii_of_string List.map app]. f_equal. exact IH.
Qed.

Lemma bytes_of_string_inj (a b : string) :
  bytes_of_string a = bytes_of_string b -> a = b.
Proof.
  intros H. apply (f_equal string_of_list_byte) in H.
  unfold bytes_of_string in H.
  now rewrite !string_of_list_byte_of_string in H.
Qed.

Lemma accountKey_inj (id id' : string) :
  bytes_of_string (Ekm.accountsPath id) = bytes_of_string (Ekm.accountsPath id') ->
  id = id'.
Proof.
  unfold Ekm.accountsPath. rewrite !bytes_of_string_app.
  intros H. apply app_inv_head in H. apply bytes_of_string_inj, H.
Qed.

Section AccountFacts.

Variable json_Unmarshal_Wallet : bytes -> result Ekm.Wallet.
Variable json_Unmarshal_HDAccount : bytes -> result Ekm.ValidatorAccount.

Local Abbreviation OpenAccount := (Ekm.OpenAccount json_Unmarshal_HDAccount).
Local Abbreviation OpenWallet := (Ekm.OpenWallet json_Unmarshal_Wallet).
Local Abbreviation ListAccounts := (Ekm.ListAccounts json_Unmarshal_HDAccount).
Local Abbreviation accountKey s id :=
  (Ekm.objPrefix s Ekm.accountsPrefix ++ bytes_of_string (Ekm.accountsPath id)).

(** What [SaveAccount] comes to when the account marshals and the random
    source delivers a nonce. *)
Lemma SaveAccount_ok (s : Ekm.storage) (rnd : bytes)
      (account : Ekm.ValidatorAccount) (data : bytes) :
  Ekm.account_MarshalJSON account = Ok data ->
  (12 <= length rnd)%nat ->
  N.of_nat (length data) <= Gcm.maxPlaintext ->
  exists blob,
    Ekm.SaveAccount s rnd account =
    (Ekm.with_db s (<[accountKey s (Ekm.account_ID account) := blob]> (Ekm.db s)),
     Ok tt) /\
    Ekm.decryptData s blob = Ok data.
Proof.
  intros Hm Hr Hmax.
  destruct (encryptData_roundtrip s rnd data Hr Hmax) as (blob & Henc & Hdec).
  exists blob. split; [|exact Hdec].
  unfold Ekm.SaveAccount. rewrite Hm, Henc. reflexivity.
Qed.

(** An account that was saved opens again: [OpenAccount] hands the
    marshalled account to [json.Unmarshal], whether the storage encrypts
    or not. *)
Theorem SaveAccount_then_OpenAccount (s : Ekm.storage) (rnd : bytes)
        (account : Ekm.ValidatorAccount) (data : bytes) :
  Ekm.account_MarshalJSON account = Ok data ->
  data <> [] ->
  (12 <= length rnd)%nat ->
  N.of_nat (length data) <= Gcm.maxPlaintext ->
  (Ekm.SaveAccount s rnd account).2 = Ok tt /\
  OpenAccount (Ekm.SaveAccount s rnd account).1 (Ekm.account_ID account) =
  Ekm.wrap_result (json_Unmarshal_HDAccount data)
    "failed to unmarshal HD account object".
Proof.
  intros Hm Hne Hr Hmax.
  destruct (SaveAccount_ok s rnd account data Hm Hr Hmax) as (blob & -> & Hdec).
  cbn [fst snd]. split; [reflexivity|].
  unfold Ekm.OpenAccount, Basedb.Get, Ekm.objPrefix.
  cbn [Ekm.db Ekm.with_db Ekm.network].
  rewrite lookup_insert_eq. cbn [Basedb.Value].
  unfold Ekm.decryptData in *. cbn [Ekm.encryptionKey Ekm.with_db].
  rewrite Hdec. unfold Ekm.decodeAccount.
  destruct data; [congruence|reflexivity].
Qed.

(** After [DeleteAccount] the account is not found, and every other
    account opens as before. *)
Theorem DeleteAccount_then_OpenAccount (s : Ekm.storage) (id id' : string) :
  (Ekm.DeleteAccount s id).2 = Ok tt /\
  OpenAccount (Ekm.DeleteAccount s id).1 id' =
  if String.eqb id id' then Err (errors_New "account not found")
  else OpenAccount s id'.
Proof.
  split; [reflexivity|].
  unfold Ekm.DeleteAccount, Basedb.Delete. cbn [fst].
  unfold Ekm.OpenAccount, Basedb.Get, Ekm.objPrefix.
  cbn [Ekm.db Ekm.with_db Ekm.network].
  destruct (String.eqb_spec id id') as [<-|Hne].
  - rewrite lookup_delete_eq. reflexivity.
  - rewrite lookup_delete_ne.
    + unfold Ekm.decryptData. cbn [Ekm.encryptionKey Ekm.with_db]. reflexivity.
    + intros E. apply app_inv_head in E. apply accountKey_inj in E. contradiction.
Qed.

(** The wallet is stored and read back in the clear: after [SaveWallet],
    [OpenWallet] hands the marshalled wallet to [json.Unmarshal], whatever
    the encryption key is at that moment. *)
Theorem SaveWallet_then_OpenWallet (s : Ekm.storage) (wallet : Ekm.Wallet)
        (data : bytes) (newKey : string) :
  Ekm.wallet_MarshalJSON wallet = Ok data ->
  data <> [] ->
  (Ekm.SaveWallet s wallet).2 = Ok tt /\
  OpenWallet (Ekm.SetEncryptionKey (Ekm.SaveWallet s wallet).1 newKey) =
  Ekm.wrap_result (json_Unmarshal_Wallet data)
    "failed to unmarshal HD Wallet object".
Proof.
  intros Hm Hne. unfold Ekm.SaveWallet. rewrite Hm.
  unfold Ekm.db_Set, Basedb.Set_. cbn [fst snd]. split; [reflexivity|].
  unfold Ekm.OpenWallet, Basedb.Get, Ekm.objPrefix, Ekm.SetEncryptionKey.
  cbn [Ekm.db Ekm.with_db Ekm.network].
  rewrite lookup_insert_eq. cbn [Basedb.Value].
  destruct data; [congruence|reflexivity].
Qed.

(** Without a wallet in the database [OpenWallet] says so, and a stored
    wallet of no bytes does not open either. *)
Theorem OpenWallet_missing_or_empty (s : Ekm.storage) :
  match Ekm.db s !! (Ekm.objPrefix s Ekm.walletPrefix ++
                     bytes_of_string Ekm.walletPath) with
  | None => OpenWallet s = Err (errors_New "could not find wallet")
  | Some [] => OpenWallet s = Err (errors_New "failed to open wallet")
  | Some (b :: value) =>
      OpenWallet s = Ekm.wrap_result (json_Unmarshal_Wallet (b :: value))
                       "failed to unmarshal HD Wallet object"
  end.
Proof.
  unfold Ekm.OpenWallet, Basedb.Get.
  destruct (Ekm.db s !! _) as [[|b value]|]; reflexivity.
Qed.

End AccountFacts.

Lemma SaveAccount_then_OpenAccount_witness :
  Ekm.OpenAccount (fun b => Ok (Ekm.MkAccount "7d0a" (Ok b)))
    (fst (Ekm.SaveAccount lockedStorage (unhex "0102030405060708090a0b0c0d0e")
            (Ekm.MkAccount "7d0a" (Ok (bytes_of_string "account"))))) "7d0a"
  = Ok (Ekm.MkAccount "7d0a" (Ok (bytes_of_string "account"))).
Proof.
  apply (SaveAccount_then_OpenAccount (fun b => Ok (Ekm.MkAccount "7d0a" (Ok b)))
           lockedStorage (unhex "0102030405060708090a0b0c0d0e")
           (Ekm.MkAccount "7d0a" (Ok (bytes_of_string "account")))
           (bytes_of_string "account")).
  - reflexivity.
  - discriminate.
  - vm_compute. lia.
  - vm_compute. discriminate.
Defined.

Lemma SaveWallet_then_OpenWallet_witness :
  Ekm.OpenWallet (fun b => Ok (Ekm.MkWallet (Ok b)))
    (Ekm.SetEncryptionKey (Ekm.SaveWallet lockedStorage plainWallet).1 "other")
  = Ok plainWallet.
Proof.
  apply (SaveWallet_then_OpenWallet (fun b => Ok (Ekm.MkWallet (Ok b)))
           lockedStorage plainWallet
           (bytes_of_string "{id:7d0a,type:HD,indexMapper:{}}") "other"%string).
  - reflexivity.
  - discriminate.
Defined.

(** ** The collections of the signer storage do not overlap *)

Lemma HasPrefix_cancel (n x a : bytes) :
  Basedb.HasPrefix (n ++ x) (n ++ a) = Basedb.HasPrefix x a.
Proof.
  unfold Basedb.HasPrefix. rewrite length_app, firstn_app.
  rewrite firstn_all2 by lia.
  replace (length n + length a - length n)%nat with (length a) by lia.
  apply bool_decide_ext. split.
  - apply app_inv_head.
  - intros ->. reflexivity.
Qed.

Lemma objPrefix_app (s : Ekm.storage) (obj : string) :
  Ekm.objPrefix s obj = bytes_of_string (Ekm.network s) ++ bytes_of_string obj.
Proof. unfold Ekm.objPrefix. apply bytes_of_string_app. Qed.

(** The wallet and the high-water marks are outside the accounts
    collection. *)
Lemma wallet_not_an_account (s : Ekm.storage) :
  Basedb.HasPrefix
    (Ekm.objPrefix s Ekm.walletPrefix ++ bytes_of_string Ekm.walletPath)
    (Ekm.objPrefix s Ekm.accountsPrefix) = false.
Proof.
  rewrite !objPrefix_app, <- app_assoc, HasPrefix_cancel. reflexivity.
Qed.

Lemma proposal_not_an_account (s : Ekm.storage) (pk : bytes) :
  Basedb.HasPrefix
    (Ekm.objPrefix s Ekm.highestProposalPrefix ++ pk)
    (Ekm.objPrefix s Ekm.accountsPrefix) = false.
Proof.
  rewrite !objPrefix_app, <- app_assoc, HasPrefix_cancel. reflexivity.
Qed.

Lemma attestation_not_an_account (s : Ekm.storage) (pk : bytes) :
  Basedb.HasPrefix
    (Ekm.objPrefix s Ekm.highestAttPrefix ++ pk)
    (Ekm.objPrefix s Ekm.accountsPrefix) = false.
Proof.
  rewrite !objPrefix_app, <- app_assoc, HasPrefix_cancel. reflexivity.
Qed.

Lemma HasPrefix_false_ne (k k' p : bytes) :
  Basedb.HasPrefix k p = true -> Basedb.HasPrefix k' p = false -> k <> k'.
Proof. intros H1 H2 ->. congruence. Qed.

Lemma List_filter_none {A} (f : A -> bool) (l : list A) :
  (forall x, In x l -> f x = false) -> List.filter f l = [].
Proof.
  induction l as [|a l IH]; intros H; [reflexivity|]. cbn.
  rewrite (H a) by (left; reflexivity). apply IH. intros x Hx. apply H. now right.
Qed.

Lemma collection_RemoveAll (d : gmap bytes bytes) (p : bytes) :
  Basedb.collection (Basedb.RemoveAllByCollection d p).1 p = [].
Proof.
  unfold Basedb.collection, Basedb.RemoveAllByCollection. cbn [fst].
  rewrite List_filter_none; [reflexivity|].
  intros [k v] Hin. apply list_elem_of_In, elem_of_map_to_list in Hin.
  apply map_lookup_filter_Some in Hin. cbn in *. apply Hin.
Qed.

Lemma lookup_RemoveAll (d : gmap bytes bytes) (p k : bytes) :
  (Basedb.RemoveAllByCollection d p).1 !! k =
  if Basedb.HasPrefix k p then None else d !! k.
Proof.
  unfold Basedb.RemoveAllByCollection. cbn [fst].
  destruct (Basedb.HasPrefix k p) eqn:Hp.
  - apply map_lookup_filter_None. right. intros v _. cbn. congruence.
  - destruct (d !! k) as [v|] eqn:Hk.
    + apply map_lookup_filter_Some. cbn. auto.
    + apply map_lookup_filter_None. left. exact Hk.
Qed.

Section ListingFacts.

Variable json_Unmarshal_Wallet : bytes -> result Ekm.Wallet.
Variable json_Unmarshal_HDAccount : bytes -> result Ekm.ValidatorAccount.

Local Abbreviation OpenAccount := (Ekm.OpenAccount json_Unmarshal_HDAccount).
Local Abbreviation OpenWallet := (Ekm.OpenWallet json_Unmarshal_Wallet).
Local Abbreviation ListAccounts := (Ekm.ListAccounts json_Unmarshal_HDAccount).
Local Abbreviation decodeAccount := (Ekm.decodeAccount json_Unmarshal_HDAccount).
Local Abbreviation accounts s :=
  (Basedb.collection (Ekm.db s) (Ekm.objPrefix s Ekm.accountsPrefix)).
Local Abbreviation reads s :=
  (fun obj acc => exists value,
       Ekm.decryptData s (Basedb.Value obj) = Ok value /\
       decodeAccount value = Ok acc).

Lemma iterate_listAccounts (s : Ekm.storage) (objs : list Basedb.Obj)
      (accs : list Ekm.ValidatorAccount) :
  Forall2 (reads s) objs accs ->
  forall (i : nat) (ret : list Ekm.ValidatorAccount),
    Basedb.iterate_result (Ekm.listAccountsHandler json_Unmarshal_HDAccount s)
      i objs ret = (ret ++ accs, Ok tt).
Proof.
  induction 1 as [|obj acc objs accs (value & Hd & Ha) _ IH]; intros i ret;
    cbn [Basedb.iterate_result].
  - rewrite app_nil_r. reflexivity.
  - unfold Ekm.listAccountsHandler at 1. rewrite Hd, Ha.
    rewrite IH, <- app_assoc. reflexivity.
Qed.

(** When every entry of the accounts collection decrypts and decodes,
    [ListAccounts] returns the accounts of all of them, in the order of
    the iteration, and no error. *)
Theorem ListAccounts_reads_every_account (s : Ekm.storage)
        (accs : list Ekm.ValidatorAccount) :
  Forall2 (reads s) (accounts s) accs ->
  ListAccounts s = (accs, Ok tt).
Proof.
  intros H. unfold Ekm.ListAccounts.
  rewrite (iterate_listAccounts s _ accs H). reflexivity.
Qed.



(** [CleanRegistryData] removes every account and nothing else: no
    account is listed or opens afterwards, and the wallet and the highest
    proposals are read as before. *)
Theorem CleanRegistryData_removes_accounts_only (s : Ekm.storage)
        (id : string) (pk : option bytes) :
  (Ekm.CleanRegistryData s).2 = Ok tt /\
  ListAccounts (Ekm.CleanRegistryData s).1 = ([], Ok tt) /\
  OpenAccount (Ekm.CleanRegistryData s).1 id = Err (errors_New "account not found") /\
  OpenWallet (Ekm.CleanRegistryData s).1 = OpenWallet s /\
  Ekm.RetrieveHighestProposal (Ekm.CleanRegistryData s).1 pk =
  Ekm.RetrieveHighestProposal s pk.
Proof.
  unfold Ekm.CleanRegistryData.
  destruct (Basedb.RemoveAllByCollection (Ekm.db s) (Ekm.objPrefix s Ekm.accountsPrefix))
    as [d [e|]] eqn:Hrm; [discriminate Hrm|].
  assert (Hd : d = (Basedb.RemoveAllByCollection (Ekm.db s)
                      (Ekm.objPrefix s Ekm.accountsPrefix)).1)
    by (rewrite Hrm; reflexivity).
  cbn [fst snd]. split; [reflexivity|]. split; [|split; [|split]].
  - unfold Ekm.ListAccounts, Ekm.objPrefix. cbn [Ekm.db Ekm.with_db Ekm.network].
    fold (Ekm.objPrefix s Ekm.accountsPrefix).
    rewrite Hd, collection_RemoveAll. reflexivity.
  - unfold Ekm.OpenAccount, Basedb.Get, Ekm.objPrefix.
    cbn [Ekm.db Ekm.with_db Ekm.network].
    fold (Ekm.objPrefix s Ekm.accountsPrefix).
    rewrite Hd, lookup_RemoveAll, HasPrefix_app. reflexivity.
  - unfold Ekm.OpenWallet, Basedb.Get, Ekm.objPrefix.
    cbn [Ekm.db Ekm.with_db Ekm.network].
    fold (Ekm.objPrefix s Ekm.walletPrefix) (Ekm.objPrefix s Ekm.accountsPrefix) in *.
    rewrite Hd, lookup_RemoveAll, wallet_not_an_account. reflexivity.
  - destruct pk as [pk|]; [|reflexivity].
    unfold Ekm.RetrieveHighestProposal, Basedb.Get, Ekm.objPrefix.
    cbn [Ekm.db Ekm.with_db Ekm.network].
    fold (Ekm.objPrefix s Ekm.highestProposalPrefix)
         (Ekm.objPrefix s Ekm.accountsPrefix) in *.
    rewrite Hd, lookup_RemoveAll, proposal_not_an_account. reflexivity.
Qed.

End ListingFacts.

Lemma lockedStorage1_collection :
  Basedb.collection (Ekm.db lockedStorage1)
    (Ekm.objPrefix lockedStorage1 Ekm.accountsPrefix) = lockedStorage1_accounts.
Proof. vm_compute. reflexivity. Qed.

Lemma ListAccounts_reads_every_account_witness :
  Ekm.ListAccounts exampleUnmarshal lockedStorage1 = ([exampleAccount], Ok tt).
Proof.
  apply ListAccounts_reads_every_account.
  rewrite lockedStorage1_collection. unfold lockedStorage1_accounts.
  constructor; [|constructor].
  exists (bytes_of_string "account"). split; vm_compute; reflexivity.
Defined.


(** ** The highest proposal and the highest attestation *)

Lemma byte_to_of_N (n : N) : byte_to_N (byte_of_N n) = n mod 256.
Proof.
  unfold byte_of_N, byte_to_N.
  destruct (Byte.of_N (n mod 256)) as [b|] eqn:E.
  - apply Byte.to_of_N, E.
  - apply Byte.of_N_None_iff in E.
    pose proof (N.mod_lt n 256 ltac:(discriminate)). lia.
Qed.

(** Eight bytes, little-endian, hold a number below [2^64]. *)
Lemma le_pack_unpack (k : nat) :
  forall n : N,
    le_pack (bytes_to_N (bytes_of_N (le_unpack k n))) = n mod 2 ^ (8 * N.of_nat k).
Proof.
  induction k as [|k IH]; intros n.
  - cbn. now rewrite N.mod_1_r.
  - cbn [le_unpack bytes_of_N bytes_to_N List.map le_pack].
    fold (bytes_of_N (le_unpack k (N.shiftr n 8))).
    fold (bytes_to_N (bytes_of_N (le_unpack k (N.shiftr n 8)))).
    rewrite byte_to_of_N, IH, N.Div0.mod_mod.
    change 256 with (2 ^ 8).
    apply N.bits_inj. intros i. rewrite N.lor_spec.
    destruct (N.lt_ge_cases i 8) as [Hi|Hi].
    + rewrite N.mod_pow2_bits_low by lia.
      rewrite N.shiftl_spec_low by lia. rewrite orb_false_r.
      rewrite N.mod_pow2_bits_low by lia. reflexivity.
    + rewrite N.mod_pow2_bits_high by lia. cbn [orb].
      rewrite N.shiftl_spec_high' by lia.
      destruct (N.lt_ge_cases i (8 * N.of_nat (S k))) as [Hk|Hk].
      * rewrite !N.mod_pow2_bits_low by lia.
        rewrite N.shiftr_spec'. f_equal. lia.
      * rewrite !N.mod_pow2_bits_high by lia. reflexivity.
Qed.

Lemma ssz_uint64_roundtrip (slot : N) :
  slot < 2 ^ 64 ->
  ssz_UnmarshallUint64 (ssz_MarshalUint64 [] slot) = Ok slot.
Proof.
  intros H. unfold ssz_UnmarshallUint64, ssz_MarshalUint64. cbn [app].
  unfold bytes_of_N at 1. rewrite length_map, length_le_unpack. cbn [Nat.ltb Nat.leb].
  rewrite firstn_all2
    by (unfold bytes_of_N; rewrite length_map, length_le_unpack; lia).
  rewrite (le_pack_unpack 8 slot). change (8 * N.of_nat 8) with 64.
  rewrite N.mod_small by exact H. reflexivity.
Qed.

(** Every slot that a [uint64] holds, zero apart, is read back as it was
    saved. *)
Theorem SaveHighestProposal_then_Retrieve (s : Ekm.storage) (pubKey : bytes) (slot : N) :
  0 < slot < 2 ^ 64 ->
  (Ekm.SaveHighestProposal s (Some pubKey) slot).2 = Ok tt /\
  Ekm.RetrieveHighestProposal (Ekm.SaveHighestProposal s (Some pubKey) slot).1
    (Some pubKey) = Ok (slot, true, None).
Proof.
  intros [Hpos Hmax]. unfold Ekm.SaveHighestProposal.
  destruct (N.eqb_spec slot 0); [lia|].
  unfold Ekm.db_Set, Basedb.Set_. cbn [fst snd]. split; [reflexivity|].
  unfold Ekm.RetrieveHighestProposal, Basedb.Get, Ekm.objPrefix.
  cbn [Ekm.db Ekm.with_db Ekm.network].
  rewrite lookup_insert_eq. cbn [negb Basedb.Value].
  assert (Hlen : length (ssz_MarshalUint64 [] slot) = 8%nat).
  { unfold ssz_MarshalUint64, bytes_of_N. cbn [app].
    now rewrite length_map, length_le_unpack. }
  rewrite Hlen. cbn [Nat.eqb].
  rewrite (ssz_uint64_roundtrip slot Hmax). reflexivity.
Qed.

Lemma SaveHighestProposal_then_Retrieve_witness :
  Ekm.RetrieveHighestProposal
    (fst (Ekm.SaveHighestProposal lockedStorage (Some (unhex "a1b2"))
            18446744073709551615))
    (Some (unhex "a1b2")) = Ok (18446744073709551615, true, None).
Proof.
  apply (SaveHighestProposal_then_Retrieve lockedStorage (unhex "a1b2")
           18446744073709551615).
  split; reflexivity.
Defined.

(** After [RemoveHighestProposal] nothing is found for the key, and the
    other keys are read as before. *)
Theorem RemoveHighestProposal_then_Retrieve (s : Ekm.storage) (pubKey pubKey' : bytes) :
  (Ekm.RemoveHighestProposal s pubKey).2 = Ok tt /\
  Ekm.RetrieveHighestProposal (Ekm.RemoveHighestProposal s pubKey).1 (Some pubKey') =
  if bool_decide (pubKey = pubKey') then Ok (0, false, None)
  else Ekm.RetrieveHighestProposal s (Some pubKey').
Proof.
  split; [reflexivity|].
  unfold Ekm.RemoveHighestProposal, Basedb.Delete. cbn [fst].
  unfold Ekm.RetrieveHighestProposal, Basedb.Get, Ekm.objPrefix.
  cbn [Ekm.db Ekm.with_db Ekm.network].
  destruct (bool_decide_reflect (pubKey = pubKey')) as [<-|Hne].
  - rewrite lookup_delete_eq. reflexivity.
  - rewrite lookup_delete_ne; [reflexivity|].
    intros E. apply app_inv_head in E. contradiction.
Qed.

(** A stored value of no bytes counts as found, and the slot comes back as
    zero with no error: the error that is wrapped there is nil. *)
Theorem RetrieveHighestProposal_empty_value (s : Ekm.storage) (pubKey : bytes) :
  Ekm.db s !! (Ekm.objPrefix s Ekm.highestProposalPrefix ++ pubKey) = Some [] ->
  Ekm.RetrieveHighestProposal s (Some pubKey) = Ok (0, true, None).
Proof.
  intros H. unfold Ekm.RetrieveHighestProposal, Basedb.Get. rewrite H. reflexivity.
Qed.

Lemma RetrieveHighestProposal_empty_value_witness :
  Ekm.RetrieveHighestProposal
    (Ekm.MkStorage
       {[ bytes_of_string "prater" ++ bytes_of_string Ekm.highestProposalPrefix ++
          unhex "a1b2" := [] ]} "prater" EmptyString)
    (Some (unhex "a1b2")) = Ok (0, true, None).
Proof.
  apply RetrieveHighestProposal_empty_value. vm_compute. reflexivity.
Defined.

Lemma proposal_not_wallet (s : Ekm.storage) (pk : bytes) :
  Basedb.HasPrefix (Ekm.objPrefix s Ekm.highestProposalPrefix ++ pk)
    (Ekm.objPrefix s Ekm.walletPrefix) = false.
Proof.
  rewrite !objPrefix_app, <- app_assoc, HasPrefix_cancel. reflexivity.
Qed.

Lemma proposal_not_attestation (s : Ekm.storage) (pk : bytes) :
  Basedb.HasPrefix (Ekm.objPrefix s Ekm.highestProposalPrefix ++ pk)
    (Ekm.objPrefix s Ekm.highestAttPrefix) = false.
Proof.
  rewrite !objPrefix_app, <- app_assoc, HasPrefix_cancel. reflexivity.
Qed.

Section HighWaterMarkFacts.

Variable json_Unmarshal_Wallet : bytes -> result Ekm.Wallet.
Variable json_Unmarshal_HDAccount : bytes -> result Ekm.ValidatorAccount.
Variable AttestationData : Type.
Variable MarshalSSZ : AttestationData -> result bytes.
Variable UnmarshalSSZ : bytes -> result AttestationData.

Local Abbreviation OpenAccount := (Ekm.OpenAccount json_Unmarshal_HDAccount).
Local Abbreviation OpenWallet := (Ekm.OpenWallet json_Unmarshal_Wallet).
Local Abbreviation SaveHighestAttestation :=
  (Ekm.SaveHighestAttestation AttestationData MarshalSSZ).
Local Abbreviation RetrieveHighestAttestation :=
  (Ekm.RetrieveHighestAttestation AttestationData UnmarshalSSZ).

(** Saving a highest proposal touches nothing but the proposal of that
    key: the accounts, the wallet, the highest attestations and the
    proposals of the other keys are read as before. *)
Theorem SaveHighestProposal_leaves_the_rest
        (s : Ekm.storage) (pubKey : bytes) (slot : N)
        (id : string) (pubKey' : bytes) :
  let s' := (Ekm.SaveHighestProposal s (Some pubKey) slot).1 in
  OpenAccount s' id = OpenAccount s id /\
  OpenWallet s' = OpenWallet s /\
  RetrieveHighestAttestation s' (Some pubKey') =
    RetrieveHighestAttestation s (Some pubKey') /\
  (pubKey' <> pubKey ->
   Ekm.RetrieveHighestProposal s' (Some pubKey') =
   Ekm.RetrieveHighestProposal s (Some pubKey')).
Proof.
  unfold Ekm.SaveHighestProposal.
  destruct (slot =? 0); cbn [fst]; [repeat split; reflexivity|].
  unfold Ekm.db_Set, Basedb.Set_. cbn [fst].
  set (k := Ekm.objPrefix s Ekm.highestProposalPrefix ++ pubKey).
  repeat split.
  - unfold Ekm.OpenAccount, Basedb.Get, Ekm.decryptData.
    change (Ekm.objPrefix (Ekm.with_db s ?d) ?o) with (Ekm.objPrefix s o).
    cbn [Ekm.db Ekm.with_db Ekm.encryptionKey].
    rewrite lookup_insert_ne; [reflexivity|].
    apply not_eq_sym.
    apply (HasPrefix_false_ne _ _ (Ekm.objPrefix s Ekm.accountsPrefix));
      [apply HasPrefix_app|apply proposal_not_an_account].
  - unfold Ekm.OpenWallet, Basedb.Get.
    change (Ekm.objPrefix (Ekm.with_db s ?d) ?o) with (Ekm.objPrefix s o).
    cbn [Ekm.db Ekm.with_db].
    rewrite lookup_insert_ne; [reflexivity|].
    apply not_eq_sym.
    apply (HasPrefix_false_ne _ _ (Ekm.objPrefix s Ekm.walletPrefix));
      [apply HasPrefix_app|apply proposal_not_wallet].
  - unfold Ekm.RetrieveHighestAttestation, Basedb.Get.
    change (Ekm.objPrefix (Ekm.with_db s ?d) ?o) with (Ekm.objPrefix s o).
    cbn [Ekm.db Ekm.with_db].
    rewrite lookup_insert_ne; [reflexivity|].
    apply not_eq_sym.
    apply (HasPrefix_false_ne _ _ (Ekm.objPrefix s Ekm.highestAttPrefix));
      [apply HasPrefix_app|apply proposal_not_attestation].
  - intros Hne. unfold Ekm.RetrieveHighestProposal, Basedb.Get.
    change (Ekm.objPrefix (Ekm.with_db s ?d) ?o) with (Ekm.objPrefix s o).
    cbn [Ekm.db Ekm.with_db].
    rewrite lookup_insert_ne; [reflexivity|].
    unfold k. intros E. apply app_inv_head in E. congruence.
Qed.

(** An attestation that was saved is retrieved as it was, when its SSZ
    encoding reads back. *)
Theorem SaveHighestAttestation_then_Retrieve
        (s : Ekm.storage) (pubKey : bytes) (attestation : AttestationData)
        (data : bytes) :
  MarshalSSZ attestation = Ok data ->
  data <> [] ->
  UnmarshalSSZ data = Ok attestation ->
  (SaveHighestAttestation s (Some pubKey) (Some attestation)).2 = Ok tt /\
  RetrieveHighestAttestation
    (SaveHighestAttestation s (Some pubKey) (Some attestation)).1 (Some pubKey)
  = Ok (Some attestation, true, None).
Proof.
  intros Hm Hne Hu. unfold Ekm.SaveHighestAttestation. rewrite Hm.
  unfold Ekm.db_Set, Basedb.Set_. cbn [fst snd]. split; [reflexivity|].
  unfold Ekm.RetrieveHighestAttestation, Basedb.Get.
  change (Ekm.objPrefix (Ekm.with_db s ?d) ?o) with (Ekm.objPrefix s o).
  cbn [Ekm.db Ekm.with_db].
  rewrite lookup_insert_eq. cbn [negb Basedb.Value].
  destruct data; [congruence|]. cbn [length Nat.eqb].
  rewrite Hu. reflexivity.
Qed.

(** After [RemoveHighestAttestation] nothing is found for the key: no
    attestation, not found, no error. *)
Theorem RemoveHighestAttestation_then_Retrieve (s : Ekm.storage) (pubKey : bytes) :
  (Ekm.RemoveHighestAttestation s pubKey).2 = Ok tt /\
  RetrieveHighestAttestation (Ekm.RemoveHighestAttestation s pubKey).1 (Some pubKey)
  = Ok (None, false, None).
Proof.
  split; [reflexivity|].
  unfold Ekm.RemoveHighestAttestation, Basedb.Delete. cbn [fst].
  unfold Ekm.RetrieveHighestAttestation, Basedb.Get.
  change (Ekm.objPrefix (Ekm.with_db s ?d) ?o) with (Ekm.objPrefix s o).
  cbn [Ekm.db Ekm.with_db].
  rewrite lookup_delete_eq. reflexivity.
Qed.

End HighWaterMarkFacts.

Lemma SaveHighestProposal_leaves_the_rest_witness :
  Ekm.RetrieveHighestProposal
    (fst (Ekm.SaveHighestProposal lockedStorage1 (Some (unhex "a1b2")) 7))
    (Some (unhex "c3d4")) =
  Ekm.RetrieveHighestProposal lockedStorage1 (Some (unhex "c3d4")).
Proof.
  apply (SaveHighestProposal_leaves_the_rest
           (fun b => Ok (Ekm.MkWallet (Ok b))) exampleUnmarshal
           N ssz_UnmarshallUint64
           lockedStorage1 (unhex "a1b2") 7 "7d0a"%string (unhex "c3d4")).
  vm_compute. discriminate.
Defined.

Lemma SaveHighestAttestation_then_Retrieve_witness :
  Ekm.RetrieveHighestAttestation N ssz_UnmarshallUint64
    (fst (Ekm.SaveHighestAttestation N (fun n => Ok (ssz_MarshalUint64 [] n))
            lockedStorage (Some (unhex "a1b2")) (Some 5)))
    (Some (unhex "a1b2")) = Ok (Some 5, true, None).
Proof.
  apply (SaveHighestAttestation_then_Retrieve N
           (fun n => Ok (ssz_MarshalUint64 [] n)) ssz_UnmarshallUint64
           lockedStorage (unhex "a1b2") 5 (ssz_MarshalUint64 [] 5)).
  - reflexivity.
  - discriminate.
  - reflexivity.
Defined.

(** * Further properties of the validator catalogue *)

Section CatalogueMore.

Variable storagePrefix : bytes.
Variable json_Marshal : Exporter.ValidatorInformation -> result bytes.
Variable json_Unmarshal : bytes -> Exporter.ValidatorInformation * option error.

Local Abbreviation Save :=
  (Exporter.SaveValidatorInformation storagePrefix json_Marshal json_Unmarshal).
Local Abbreviation saves :=
  (Exporter.saves storagePrefix json_Marshal json_Unmarshal).
Local Abbreviation Get :=
  (Exporter.GetValidatorInformation storagePrefix json_Unmarshal).
Local Abbreviation key pk := (storagePrefix ++ Exporter.validatorKey pk).
Local Abbreviation entries s :=
  (Basedb.collection (Exporter.db s) (storagePrefix ++ Exporter.validatorsPrefix)).
Local Abbreviation stored := (Exporter.stored storagePrefix json_Unmarshal).

(** A save leaves the storage as it is or adds the entry of its key. *)
Lemma Save_state (s : Exporter.storage) (vi : Exporter.ValidatorInformation) :
  (Save s vi).1.1 = s \/
  (Exporter.db s !! key (Exporter.PublicKey vi) = None /\
   exists raw,
     json_Marshal
       (Exporter.set_Index vi (Z.of_nat (length (entries s)))) = Ok raw /\
     (Save s vi).1.1 =
     Exporter.MkStorage (<[key (Exporter.PublicKey vi) := raw]> (Exporter.db s))).
Proof.
  destruct (Exporter.db s !! key (Exporter.PublicKey vi)) as [raw|] eqn:Hget.
  - left. unfold Exporter.SaveValidatorInformation,
      Exporter.getValidatorInformationNotSafe, Basedb.Get.
    rewrite Hget. cbn [negb Basedb.Value].
    destruct (json_Unmarshal raw) as [info [e|]]; reflexivity.
  - destruct (json_Marshal
                (Exporter.set_Index vi (Z.of_nat (length (entries s)))))
      as [raw|e|m] eqn:Hm.
    + right. split; [reflexivity|]. exists raw. split; [reflexivity|].
      rewrite (Save_new storagePrefix json_Marshal json_Unmarshal s vi raw Hget Hm).
      reflexivity.
    + left. unfold Exporter.SaveValidatorInformation,
        Exporter.getValidatorInformationNotSafe, Basedb.Get.
      rewrite Hget. cbn [negb].
      unfold Exporter.nextIndex, Basedb.CountByCollection,
        Exporter.saveValidatorNotSafe.
      rewrite Hm. reflexivity.
    + left. unfold Exporter.SaveValidatorInformation,
        Exporter.getValidatorInformationNotSafe, Basedb.Get.
      rewrite Hget. cbn [negb].
      unfold Exporter.nextIndex, Basedb.CountByCollection,
        Exporter.saveValidatorNotSafe.
      rewrite Hm. reflexivity.
Qed.

(** A save writes under the key of its record only: every other key of
    the database reads as before. *)
Theorem SaveValidatorInformation_writes_own_key_only
        (s : Exporter.storage) (vi : Exporter.ValidatorInformation) (k : bytes) :
  k <> key (Exporter.PublicKey vi) ->
  Exporter.db (Save s vi).1.1 !! k = Exporter.db s !! k.
Proof.
  intros Hne. destruct (Save_state s vi) as [->|(_ & raw & _ & ->)];
    [reflexivity|].
  cbn [Exporter.db]. apply lookup_insert_ne. congruence.
Qed.

(** The record that [GetValidatorInformation] reads after the save of a
    new public key is the one that the caller got back, index and all,
    when its encoding reads back. *)
Theorem SaveValidatorInformation_then_Get
        (s : Exporter.storage) (vi : Exporter.ValidatorInformation) (raw : bytes) :
  Exporter.db s !! key (Exporter.PublicKey vi) = None ->
  json_Marshal (Save s vi).1.2 = Ok raw ->
  json_Unmarshal raw = ((Save s vi).1.2, None) ->
  (Save s vi).2 = Ok tt /\
  Exporter.Index (Save s vi).1.2 = Z.of_nat (length (entries s)) /\
  Get (Save s vi).1.1 (Exporter.PublicKey vi) = (Some (Save s vi).1.2, true, None).
Proof.
  intros Hget Hm Hu.
  assert (Hvi : (Save s vi).1.2 =
                Exporter.set_Index vi (Z.of_nat (length (entries s)))).
  { unfold Exporter.SaveValidatorInformation,
      Exporter.getValidatorInformationNotSafe, Basedb.Get.
    rewrite Hget. cbn [negb].
    unfold Exporter.nextIndex, Basedb.CountByCollection.
    destruct (Exporter.saveValidatorNotSafe _ _ _ _). reflexivity. }
  rewrite Hvi in Hm, Hu.
  rewrite (Save_new storagePrefix json_Marshal json_Unmarshal s vi raw Hget Hm).
  cbn [fst snd]. repeat split.
  unfold Exporter.GetValidatorInformation,
    Exporter.getValidatorInformationNotSafe, Basedb.Get. cbn [Exporter.db].
  rewrite lookup_insert_eq. cbn [negb Basedb.Value]. rewrite Hu. reflexivity.
Qed.

(** A stored record that does not read back blocks the save of its key:
    the error is returned, nothing is written and the record of the
    caller is as it was. *)
Theorem SaveValidatorInformation_unreadable_record
        (s : Exporter.storage) (vi : Exporter.ValidatorInformation)
        (raw : bytes) (partial : Exporter.ValidatorInformation) (e : error) :
  Exporter.db s !! key (Exporter.PublicKey vi) = Some raw ->
  json_Unmarshal raw = (partial, Some e) ->
  Save s vi = (s, vi, Err (WithMessage e "could not read information from DB")).
Proof.
  intros Hget Hu.
  unfold Exporter.SaveValidatorInformation,
    Exporter.getValidatorInformationNotSafe, Basedb.Get.
  rewrite Hget. cbn [negb Basedb.Value]. rewrite Hu. reflexivity.
Qed.




Section Dense.

Hypothesis codec : Exporter.index_roundtrip json_Marshal json_Unmarshal.

Lemma Save_dense (s : Exporter.storage) (vi : Exporter.ValidatorInformation) :
  List.map Exporter.Index (stored s) ≡ₚ
    List.map Z.of_nat (seq 0 (length (entries s))) ->
  List.map Exporter.Index (stored (Save s vi).1.1) ≡ₚ
    List.map Z.of_nat (seq 0 (length (entries (Save s vi).1.1))).
Proof.
  intros IH. destruct (Save_state s vi) as [->|(Hget & raw & Hm & ->)];
    [exact IH|].
  cbn [Exporter.db].
  pose proof (collection_insert (Exporter.db s)
                (storagePrefix ++ Exporter.validatorsPrefix)
                (key (Exporter.PublicKey vi)) raw Hget
                (validatorKey_in_collection storagePrefix _)) as Hperm.
  rewrite (Permutation_length Hperm). cbn [length].
  rewrite seq_S, List.map_app. cbn [List.map Nat.add].
  unfold Exporter.stored. cbn [Exporter.db].
  rewrite (Permutation_map _ Hperm). cbn [List.map Basedb.Value].
  destruct (codec (Exporter.set_Index vi (Z.of_nat (length (entries s)))))
    as (raw' & Hm' & _ & Hidx).
  rewrite Hm in Hm'. injection Hm' as <-. rewrite Hidx.
  cbn [Exporter.set_Index Exporter.Index].
  rewrite <- Permutation_cons_append. constructor. exact IH.
Qed.

(** In a catalogue that saves have built from one without validators, the
    indices of the records are the numbers from zero up to the number of
    records, each of them once: no two validators share an index. *)
Theorem indices_are_dense_and_unique (s0 s : Exporter.storage) :
  entries s0 = [] ->
  saves s0 s ->
  List.map Exporter.Index (stored s) ≡ₚ
    List.map Z.of_nat (seq 0 (length (stored s))) /\
  List.NoDup (List.map Exporter.Index (stored s)).
Proof.
  intros Hempty Hs.
  assert (H : List.map Exporter.Index (stored s) ≡ₚ
              List.map Z.of_nat (seq 0 (length (entries s)))).
  { induction Hs as [|s vi _ IH].
    - unfold Exporter.stored. rewrite Hempty. reflexivity.
    - apply Save_dense, IH. }
  assert (Hlen : length (stored s) = length (entries s))
    by (unfold Exporter.stored; apply length_map).
  rewrite Hlen. split; [exact H|].
  eapply Permutation_NoDup; [symmetry; exact H|].
  apply Finite.Injective_map_NoDup; [|apply seq_NoDup].
  intros a b. apply Nat2Z.inj.
Qed.

End Dense.

End CatalogueMore.

Lemma SaveValidatorInformation_writes_own_key_only_witness :
  Exporter.db (unarySave catalogue1 validatorB).1.1
    !! (exporterPrefix ++ Exporter.validatorKey "a1b2") =
  Exporter.db catalogue1 !! (exporterPrefix ++ Exporter.validatorKey "a1b2").
Proof.
  apply (SaveValidatorInformation_writes_own_key_only exporterPrefix
           Exporter.unaryMarshal Exporter.unaryUnmarshal catalogue1 validatorB).
  vm_compute. discriminate.
Defined.

Lemma indices_are_dense_and_unique_witness :
  List.NoDup (List.map Exporter.Index
           (Exporter.stored exporterPrefix Exporter.unaryUnmarshal catalogue2)).
Proof.
  apply (indices_are_dense_and_unique exporterPrefix Exporter.unaryMarshal
           Exporter.unaryUnmarshal unary_index_roundtrip catalogue0 catalogue2).
  - reflexivity.
  - apply (Exporter.saves_step _ _ _ _ catalogue1 validatorB).
    apply (Exporter.saves_step _ _ _ _ catalogue0 validatorA).
    constructor.
Defined.

Lemma SaveValidatorInformation_then_Get_witness :
  Exporter.GetValidatorInformation exporterPrefix Exporter.unaryUnmarshal
    (unarySave catalogue0 validatorC).1.1 "e5f6" =
  (Some (unarySave catalogue0 validatorC).1.2, true, None).
Proof.
  apply (SaveValidatorInformation_then_Get exporterPrefix Exporter.unaryMarshal
           Exporter.unaryUnmarshal catalogue0 validatorC (bytes_of_string "/e5f6")).
  - vm_compute. reflexivity.
  - vm_compute. reflexivity.
  - vm_compute. reflexivity.
Defined.

Lemma SaveValidatorInformation_unreadable_record_witness :
  Exporter.SaveValidatorInformation exporterPrefix Exporter.unaryMarshal
    strictUnmarshal corruptCatalogue validatorA =
  (corruptCatalogue, validatorA,
   Err (WithMessage (errors_New "unexpected end of JSON input")
          "could not read information from DB")).
Proof.
  apply (SaveValidatorInformation_unreadable_record exporterPrefix
           Exporter.unaryMarshal strictUnmarshal corruptCatalogue validatorA []
           (Exporter.MkValidatorInformation 0 EmptyString [])).
  - vm_compute. reflexivity.
  - reflexivity.
Defined.



(** * Further properties of the validator runtime *)

Section RuntimeMore.

Variable SignatureState : Type.
Variable newSignatureState : N -> SignatureState.
Variable SignedPostConsensusMessage : Type.
Variable verify : Qbft.SignedMessage -> bool.
Variable validateMessage : Validator.Share -> SSVMessage -> option error.
Variable decodeSignedMessage : bytes -> result Qbft.SignedMessage.
Variable decodePostConsensus : bytes -> result SignedPostConsensusMessage.
Variable processPostConsensusSig :
  SignatureState -> option Qbft.Controller -> SignedPostConsensusMessage ->
  SignatureState * result unit.

Local Abbreviation messageHandler :=
  (Validator.messageHandler SignatureState SignedPostConsensusMessage verify
     validateMessage decodeSignedMessage decodePostConsensus
     processPostConsensusSig).
Local Abbreviation ProcessMsg :=
  (Validator.ProcessMsg SignatureState SignedPostConsensusMessage verify
     validateMessage decodeSignedMessage decodePostConsensus
     processPostConsensusSig).
Local Abbreviation run :=
  (Validator.run SignatureState SignedPostConsensusMessage verify
     validateMessage decodeSignedMessage decodePostConsensus
     processPostConsensusSig).
Local Abbreviation ibfts := (Validator.ibfts SignatureState).
Local Abbreviation signatureState := (Validator.signatureState SignatureState).

(** Outside read mode [ProcessMsg] does not run the handler: whatever the
    message is, a sync message too, it returns without a panic and the
    controllers, the signature state and the share are as they were. *)
Theorem ProcessMsg_normal_mode_defers
        (v : Validator.Validator SignatureState) (msg : SSVMessage) :
  Validator.readMode SignatureState v = false ->
  (ProcessMsg v msg).2 = Ok tt /\
  ibfts (ProcessMsg v msg).1 = ibfts v /\
  signatureState (ProcessMsg v msg).1 = signatureState v /\
  Validator.share SignatureState (ProcessMsg v msg).1 =
  Validator.share SignatureState v.
Proof.
  intros Hmode. unfold Validator.ProcessMsg. rewrite Hmode.
  destruct (Validator.TryEnqueue _ msg). repeat split.
Qed.


(** Every controller sits in the map under the role of its identifier. *)
Local Abbreviation keyed v :=
  (map_Forall (fun (r : RoleType) c => GetRoleType (Qbft.Identifier_ c) = r)
              (ibfts v)).

Lemma messageHandler_roles (v : Validator.Validator SignatureState) (msg : SSVMessage) :
  keyed v ->
  keyed (messageHandler v msg).1 /\
  dom (ibfts (messageHandler v msg).1) = dom (ibfts v).
Proof.
  intros Hk. unfold Validator.messageHandler.
  destruct (validateMessage _ msg); [split; [exact Hk|reflexivity]|].
  destruct (GetType msg); try (split; [exact Hk|reflexivity]).
  - destruct (decodeSignedMessage _); try (split; [exact Hk|reflexivity]).
    unfold Validator.processConsensusMsg, Controller.ControllerForIdentifier.
    destruct (ibfts v !! GetRoleType (GetIdentifier msg)) as [c|] eqn:Hc;
      [|split; [exact Hk|reflexivity]].
    pose proof (Hk _ _ Hc) as Hrole.
    unfold Qbft.ProcessConsensusMessage.
    destruct (Qbft.ProcessMessage verify (Qbft.instance c) a) as [[i [d|]]|e|m];
      cbn [fst Validator.ibfts Qbft.Identifier_]; rewrite Hrole; split;
      try (apply map_Forall_insert_2; [exact Hrole|exact Hk]);
      apply dom_insert_lookup_L; eauto.
  - destruct (decodePostConsensus _); try (split; [exact Hk|reflexivity]).
    destruct (processPostConsensusSig _ _ _). split; [exact Hk|reflexivity].
Qed.

Lemma run_roles (es : list Validator.event) :
  forall v : Validator.Validator SignatureState,
    keyed v -> dom (ibfts (run v es)) = dom (ibfts v).
Proof.
  induction es as [|e es IH]; intros v Hk; cbn [Validator.run]; [reflexivity|].
  assert (Hstep : keyed (Validator.step SignatureState SignedPostConsensusMessage
                           verify validateMessage decodeSignedMessage
                           decodePostConsensus processPostConsensusSig v e).1 /\
                  dom (ibfts (Validator.step SignatureState SignedPostConsensusMessage
                           verify validateMessage decodeSignedMessage
                           decodePostConsensus processPostConsensusSig v e).1) =
                  dom (ibfts v)).
  { destruct e as [msg|]; cbn [Validator.step].
    - unfold Validator.ProcessMsg. destruct (Validator.readMode _ v).
      + pose proof (messageHandler_roles v msg Hk) as H.
        destruct (messageHandler v msg). exact H.
      + destruct (Validator.TryEnqueue _ _). split; [exact Hk|reflexivity].
    - unfold Validator.workerStep.
      destruct (Validator.queue _) as [|msg rest]; [split; [exact Hk|reflexivity]|].
      match goal with
      | |- context [messageHandler ?v1 msg] =>
          pose proof (messageHandler_roles v1 msg Hk) as H;
          destruct (messageHandler v1 msg)
      end.
      exact H. }
  destruct Hstep as [Hk' Hdom].
  destruct (Validator.step _ _ _ _ _ _ _ v e) as [v' [| |]]; cbn [fst] in *;
    try exact Hdom; rewrite IH by exact Hk'; exact Hdom.
Qed.

(** No run gives a validator a controller that it was not built with:
    after every run of a new validator the attester role is the only one
    with a controller, so a message for any other role finds none. *)
Theorem run_keeps_the_roles (opt : Validator.Options) (es : list Validator.event)
        (identifier : Identifier) :
  is_Some
    (Controller.ControllerForIdentifier
       (ibfts (run (Validator.NewValidator SignatureState newSignatureState opt) es))
       identifier) <->
  GetRoleType identifier = RoleTypeAttester.
Proof.
  unfold Controller.ControllerForIdentifier.
  rewrite <- elem_of_dom, run_roles.
  - cbn [Validator.NewValidator Validator.ibfts]. unfold Validator.setupIbfts.
    rewrite dom_insert_L, dom_empty_L, union_empty_r_L, elem_of_singleton.
    reflexivity.
  - cbn [Validator.NewValidator Validator.ibfts]. unfold Validator.setupIbfts.
    apply map_Forall_insert_2; [reflexivity|apply map_Forall_empty].
Qed.

End RuntimeMore.


Lemma ProcessMsg_normal_mode_defers_witness :
  (exampleProcessMsg (exampleValidator false) syncMessage).2 = Ok tt.
Proof.
  apply (ProcessMsg_normal_mode_defers unit bytes (fun _ => true)
           (fun _ _ => None) exampleDecode (fun b => Ok b) exampleHandlePartial
           (exampleValidator false) syncMessage).
  reflexivity.
Defined.


Lemma run_keeps_the_roles_witness :
  is_Some
    (Controller.ControllerForIdentifier
       (Validator.ibfts unit
          (exampleRun (exampleValidator true)
             [Validator.Deliver (commitFrom x01); Validator.Deliver (commitFrom x02)]))
       attesterId).
Proof.
  apply (run_keeps_the_roles unit (fun _ => tt) bytes (fun _ => true)
           (fun _ _ => None) exampleDecode (fun b => Ok b) exampleHandlePartial
           (Validator.MkOptions exampleShare 5 true)
           [Validator.Deliver (commitFrom x01); Validator.Deliver (commitFrom x02)]
           attesterId).
  reflexivity.
Defined.
